(** * The action-execution controller of st2api

    A shallow embedding of [st2api/controllers/actionexecutions.py]:
    the REST controller that creates, updates, fetches and lists
    action executions on top of the persistence layer.

    The controller is stateful (it writes the execution store and the
    log) and fallible ([abort] raises an HTTP error, attribute and key
    accesses raise Python exceptions), so the handlers are written in a
    small state-and-error monad over an explicit [World]. *)

From Stdlib Require Import ZArith List Ascii String Sorted Permutation DecimalString DecimalN.
From stdpp Require Import base option decidable list strings gmap fin_maps.

Open Scope string_scope.
Open Scope Z_scope.
Open Scope list_scope.

(** ** Values *)

(** JSON-like values carried in parameters, results and contexts. *)
#[local] Set Warnings "-register-all".
Inductive json : Type :=
  | JNull
  | JBool (b : bool)
  | JNum (z : Z)
  | JStr (s : string)
  | JArr (items : list json)
  | JObj (fields : list (string * json)).

Definition json_eq_dec : ∀ x y : json, {x = y} + {x ≠ y}.
Proof.
  fix IH 1. intros x y.
  decide equality.
  - apply bool_eq_dec.
  - apply Z.eq_dec.
  - apply (decide_rel (=@{string})).
  - apply List.list_eq_dec, IH.
  - apply List.list_eq_dec. intros [k1 v1] [k2 v2].
    destruct (decide (k1 = k2)) as [->|Hk]; [|right; congruence].
    destruct (IH v1 v2) as [->|Hv]; [left; reflexivity|right; congruence].
Defined.

#[global] Instance json_eq_decision : EqDecision json := json_eq_dec.

(** The value under a key of an object (the first entry of that key; an
    object holds each key once). *)
Fixpoint obj_lookup (k : string) (fields : list (string * json))
    : option json :=
  match fields with
  | [] => None
  | (k', v) :: r => if bool_decide (k = k') then Some v else obj_lookup k r
  end.

(** [True] and [False] compare as the numbers [1] and [0]. *)
Definition bool_num (b : bool) : Z := if b then 1 else 0.

(** [x == y] of Python on these values: booleans and numbers compare by
    number ([True == 1], [False == 0]), lists item by item, dicts key by
    key whatever the order of the keys. *)
Fixpoint py_eq (x y : json) {struct x} : bool :=
  match x, y with
  | JNull, JNull => true
  | JBool b, JBool c => bool_num b =? bool_num c
  | JBool b, JNum z => bool_num b =? z
  | JNum z, JBool c => z =? bool_num c
  | JNum z, JNum z' => z =? z'
  | JStr s, JStr t => bool_decide (s = t)
  | JArr l, JArr m =>
      (fix items (l m : list json) {struct l} : bool :=
         match l, m with
         | [], [] => true
         | a :: l', b :: m' => py_eq a b && items l' m'
         | _, _ => false
         end) l m
  | JObj f, JObj g =>
      (length f =? length g)%nat
      && (fix fields (f : list (string * json)) {struct f} : bool :=
            match f with
            | [] => true
            | (k, v) :: f' =>
                match obj_lookup k g with
                | Some v' => py_eq v v'
                | None => false
                end && fields f'
            end) f
  | _, _ => false
  end.

(** An attribute that is unset or [None] is the value [None]. *)
Definition py_value (o : option json) : json := default JNull o.

(** [x != y] on two attribute values. *)
Definition py_ne (x y : option json) : bool :=
  negb (py_eq (py_value x) (py_value y)).

(** [x is not None] *)
Definition is_not_None (v : json) : bool :=
  match v with JNull => false | _ => true end.

(** ** Strings: [str.replace] on a single character, [str.strip], [int] *)

Definition squote : ascii := "'"%char.
Definition dquote : ascii := "034"%char.

(** [s.replace(old, new)] where [old] and [new] are one character long. *)
Fixpoint replace (old new : ascii) (s : string) : string :=
  match s with
  | EmptyString => EmptyString
  | String c r =>
      String (if Ascii.eqb c old then new else c) (replace old new r)
  end.

Definition py_space (c : ascii) : bool :=
  match nat_of_ascii c with
  | 9%nat | 10%nat | 11%nat | 12%nat | 13%nat | 32%nat => true
  | _ => false
  end.

Fixpoint lstrip (s : string) : string :=
  match s with
  | EmptyString => EmptyString
  | String c r => if py_space c then lstrip r else s
  end.

Fixpoint rstrip (s : string) : string :=
  match s with
  | EmptyString => EmptyString
  | String c r =>
      match rstrip r with
      | EmptyString => if py_space c then EmptyString else String c EmptyString
      | r' => String c r'
      end
  end.

Definition strip (s : string) : string := rstrip (lstrip s).

(** [int(s)] on a string: surrounding whitespace is dropped, one sign is
    allowed, the rest must be decimal digits; [None] is [ValueError].
    Digits and blanks are the ASCII ones; underscores between digits, which
    later versions of [int] accept, are not. *)
Definition py_int (s : string) : option Z :=
  match strip s with
  | String "+" r => Z.of_uint <$> NilZero.uint_of_string r
  | t => Z.of_int <$> NilZero.int_of_string t
  end.

(** [str(n)] for a natural number. *)
Definition py_str (n : N) : string := NilZero.string_of_uint (N.to_uint n).

(** ** Data model *)

(** Modelled from the spec: the status constants of
    [st2common.models.api.action] ([ACTIONEXEC_STATUS_INIT],
    [ACTIONEXEC_STATUS_SCHEDULED], ...) are not part of the controller
    file; the enumeration is the one of the data model. *)
Inductive status : Type := INIT | SCHEDULED | RUNNING | SUCCEEDED | FAILED.

#[global] Instance status_eq_decision : EqDecision status.
Proof. solve_decision. Defined.

Definition ACTIONEXEC_STATUS_INIT : status := INIT.
Definition ACTIONEXEC_STATUS_SCHEDULED : status := SCHEDULED.

(** The [action] dictionary of an execution: an [id], a [name], or both.
    Every request carries one. *)
Record ActionRef : Type := mkActionRef {
  ref_id : option string;
  ref_name : option string
}.

(** Database object ids are numbers; their string form is decimal. *)
Definition ObjectId : Type := N.

(** The request/response object [ActionExecutionAPI].  Optional
    attributes are [None] when the attribute is not set on the object;
    [start_timestamp] is stamped by every handler that receives a request
    before anything reads it. *)
Record ActionExecutionAPI : Type := mkAPI {
  api_id : option string;
  api_action : ActionRef;
  api_parameters : option (gmap string json);
  api_runner_parameters : option (gmap string json);
  api_status : option status;
  api_result : option json;
  api_start_timestamp : Z;
  api_context : option json
}.

(** The stored document [ActionExecutionDB]. *)
Record ActionExecutionDB : Type := mkDB {
  db_id : option ObjectId;
  db_action : ActionRef;
  db_parameters : gmap string json;
  db_status : option status;
  db_result : option json;
  db_start_timestamp : Z;
  db_context : option json
}.

(** Attribute assignments. *)
Definition set_start_timestamp (t : Z) (a : ActionExecutionAPI) :=
  mkAPI (api_id a) (api_action a) (api_parameters a) (api_runner_parameters a)
        (api_status a) (api_result a) t (api_context a).
Definition set_context (c : json) (a : ActionExecutionAPI) :=
  mkAPI (api_id a) (api_action a) (api_parameters a) (api_runner_parameters a)
        (api_status a) (api_result a) (api_start_timestamp a) (Some c).
Definition set_runner_parameters (p : gmap string json) (a : ActionExecutionAPI) :=
  mkAPI (api_id a) (api_action a) (api_parameters a) (Some p)
        (api_status a) (api_result a) (api_start_timestamp a) (api_context a).
Definition set_parameters (p : gmap string json) (a : ActionExecutionAPI) :=
  mkAPI (api_id a) (api_action a) (Some p) (api_runner_parameters a)
        (api_status a) (api_result a) (api_start_timestamp a) (api_context a).
Definition set_action (r : ActionRef) (a : ActionExecutionAPI) :=
  mkAPI (api_id a) r (api_parameters a) (api_runner_parameters a)
        (api_status a) (api_result a) (api_start_timestamp a) (api_context a).
Definition set_status (s : status) (a : ActionExecutionAPI) :=
  mkAPI (api_id a) (api_action a) (api_parameters a) (api_runner_parameters a)
        (Some s) (api_result a) (api_start_timestamp a) (api_context a).

Definition set_db_id (i : ObjectId) (d : ActionExecutionDB) :=
  mkDB (Some i) (db_action d) (db_parameters d) (db_status d) (db_result d)
       (db_start_timestamp d) (db_context d).
Definition set_db_status (s : option status) (d : ActionExecutionDB) :=
  mkDB (db_id d) (db_action d) (db_parameters d) s (db_result d)
       (db_start_timestamp d) (db_context d).
Definition set_db_result (r : option json) (d : ActionExecutionDB) :=
  mkDB (db_id d) (db_action d) (db_parameters d) (db_status d) r
       (db_start_timestamp d) (db_context d).

(** Modelled from the spec: [ActionExecutionAPI.to_model] and
    [ActionExecutionAPI.from_model] live in [st2common.models.api.action];
    they convert field by field between the request object and the stored
    document.  A model built from a request has no id yet (the id is
    assigned at creation); an unset [parameters] becomes the empty dict. *)
Definition to_model (a : ActionExecutionAPI) : ActionExecutionDB :=
  mkDB None (api_action a) (default ∅ (api_parameters a)) (api_status a)
       (api_result a) (api_start_timestamp a) (api_context a).

Definition from_model (d : ActionExecutionDB) : ActionExecutionAPI :=
  mkAPI (py_str <$> db_id d) (db_action d) (Some (db_parameters d)) None
        (db_status d) (db_result d) (db_start_timestamp d) (db_context d).

(** The action and runner-type descriptors (read-only here). *)
Record ActionDB : Type := mkAction {
  action_id : string;
  action_name : string;
  enabled : bool;
  runner_type : gmap string string
}.

Record RunnerTypeDB : Type := mkRunnerType {
  runnertype_name : string;
  runner_parameters : gmap string (gmap string json)
}.

(** ** Collaborators

    The helpers of [st2common.util.action_db], [st2common.util.schema],
    [jsonschema] and [json] that the controller calls.  They only read,
    so they are functions; the controller is verified for every
    implementation of this interface. *)
Class Collaborators : Type := {
  (** [(action_db, action_dict)]; [action_db] is [None] when the lookup
      fails *)
  get_action_by_dict : ActionRef → option ActionDB * ActionRef;
  (** [None]: the helper found no runner type and raised *)
  get_runnertype_by_name : string → option RunnerTypeDB;
  get_parameter_schema : ActionDB → json;
  (** [jsonschema.validate]: [Some e] is [ValidationError] with [str(e) = e] *)
  jsonschema_validate : gmap string json → json → option string;
  (** [json.loads]: [None] is [ValueError] *)
  json_loads : string → option json
}.

(** ** Outcomes, the world and the handler monad *)

Inductive http_status : Type := BAD_REQUEST | FORBIDDEN | NOT_FOUND.

Definition http_code (s : http_status) : Z :=
  match s with BAD_REQUEST => 400 | FORBIDDEN => 403 | NOT_FOUND => 404 end.

(** Python exceptions that no handler catches. *)
Inductive exn : Type :=
  | AttributeError (attr : string)
  | KeyError (key : string)
  | ValueError
  | InvalidObjectId
  | DoesNotExist
  | StorageError.

Inductive Outcome (A : Type) : Type :=
  | Ok (a : A)
  | Abort (code : http_status) (msg : string)
  | Raise (e : exn).
Arguments Ok {A} a.
Arguments Abort {A} code msg.
Arguments Raise {A} e.

Inductive level : Type := DEBUG | INFO | AUDIT | WARNING | ERROR | EXCEPTION.

Definition LogEntry : Type := level * string.

(** Modelled from the spec: the persistence layer
    ([st2common.persistence.action.ActionExecution]) is not part of the
    controller file.  The store holds the documents in insertion order,
    hands out fresh ids from a counter, and may be unavailable, in which
    case every access raises.  [writes] is the journal of the documents
    saved so far, oldest first. *)
Record Store : Type := mkStore {
  docs : list ActionExecutionDB;
  next_oid : N;
  available : bool;
  writes : list ActionExecutionDB
}.

Record World : Type := mkWorld {
  store : Store;
  log : list LogEntry
}.

Definition M (A : Type) : Type := World → Outcome A * World.

Definition ret {A} (a : A) : M A := λ w, (Ok a, w).

Definition bind {A B} (m : M A) (k : A → M B) : M B := λ w,
  match m w with
  | (Ok a, w') => k a w'
  | (Abort c msg, w') => (Abort c msg, w')
  | (Raise e, w') => (Raise e, w')
  end.

#[global] Instance M_ret : MRet M := @ret.
#[global] Instance M_bind : MBind M := λ A B k m, bind m k.

(** [abort(code, msg)] of pecan: raises the HTTP error. *)
Definition abort {A} (code : http_status) (msg : string) : M A :=
  λ w, (Abort code msg, w).

Definition raise {A} (e : exn) : M A := λ w, (Raise e, w).

(** [LOG.<level>(msg, args...)]: appends the level and the message
    template to the log; the arguments are not recorded. *)
Definition LOG (l : level) (msg : string) : M unit :=
  λ w, (Ok tt, mkWorld (store w) (log w ++ [(l, msg)])).

Definition get_store : M Store := λ w, (Ok (store w), w).
Definition put_store (s : Store) : M unit := λ w, (Ok tt, mkWorld s (log w)).

(** Running a handler: the outcome and the world it leaves. *)
Definition outcome_of {A} (m : M A) (w : World) : Outcome A := fst (m w).
Definition world_after {A} (m : M A) (w : World) : World := snd (m w).

(** ** The persistence layer *)

Definition has_id (i : ObjectId) (d : ActionExecutionDB) : bool :=
  bool_decide (db_id d = Some i).

(** Replace the stored document that has id [i], or append when there is
    none. *)
Fixpoint upsert (i : ObjectId) (d : ActionExecutionDB)
    (l : list ActionExecutionDB) : list ActionExecutionDB :=
  match l with
  | [] => [d]
  | x :: r => if has_id i x then d :: r else x :: upsert i d r
  end.

(** The ObjectId a string denotes; [None] for a malformed id. *)
Definition parse_oid (s : string) : option ObjectId :=
  N.of_uint <$> NilZero.uint_of_string s.

(** Stable insertion sort: what [sorted] and [order_by] do. *)
Fixpoint insert_by {A} (leb : A → A → bool) (x : A) (l : list A) : list A :=
  match l with
  | [] => [x]
  | y :: r => if leb x y then x :: l else y :: insert_by leb x r
  end.

Definition sort_by {A} (leb : A → A → bool) (l : list A) : list A :=
  foldr (insert_by leb) [] l.

Definition ascending (x y : ActionExecutionDB) : bool :=
  db_start_timestamp x <=? db_start_timestamp y.
Definition descending (x y : ActionExecutionDB) : bool :=
  db_start_timestamp y <=? db_start_timestamp x.

(** The orderings a query can ask for: ['start_timestamp'] and
    ['-start_timestamp']. *)
Inductive order : Type := ByStartAsc | ByStartDesc.

Definition order_leb (o : order) : ActionExecutionDB → ActionExecutionDB → bool :=
  match o with ByStartAsc => ascending | ByStartDesc => descending end.

(** [limit]: [None] is no limit, otherwise at most that many documents. *)
Definition apply_limit {A} (limit : option Z) (l : list A) : list A :=
  match limit with
  | None => l
  | Some n => take (Z.to_nat n) l
  end.

Module ActionExecution.

(** Modelled from the spec: [ActionExecution.get_by_id(id)], the store's
    [get]; it raises when the store is down, when [id] is not an object
    id and when no document has that id. *)
Definition get_by_id (id : string) : M ActionExecutionDB :=
  s ← get_store;
  if negb (available s) then raise StorageError
  else match parse_oid id with
       | None => raise InvalidObjectId
       | Some i =>
           match List.find (has_id i) (docs s) with
           | None => raise DoesNotExist
           | Some d => mret d
           end
       end.

(** Modelled from the spec: [ActionExecution.query(<filter>,
    order_by=[..], limit=..)], the store's [query(filter, order, limit)]:
    the matching documents, ordered, capped by [limit]. *)
Definition query (flt : ActionExecutionDB → bool) (order_by : order)
    (limit : option Z) : M (list ActionExecutionDB) :=
  s ← get_store;
  if negb (available s) then raise StorageError
  else mret (apply_limit limit
               (sort_by (order_leb order_by) (List.filter flt (docs s)))).

(** Modelled from the spec: [ActionExecution.get_all(order_by=[..],
    limit=.., **kw)], the query without a primary filter. *)
Definition get_all (flt : ActionExecutionDB → bool) (order_by : order)
    (limit : option Z) : M (list ActionExecutionDB) :=
  query flt order_by limit.

(** Modelled from the spec: [ActionExecution.add_or_update(model)], the
    store's [upsert]: a model without id is inserted under a fresh id, a
    model with an id replaces the document of that id; the saved model is
    returned. *)
Definition add_or_update (d : ActionExecutionDB) : M ActionExecutionDB :=
  s ← get_store;
  if negb (available s) then raise StorageError
  else match db_id d with
       | None =>
           let d' := set_db_id (next_oid s) d in
           put_store (mkStore (docs s ++ [d']) (N.succ (next_oid s))
                              (available s) (writes s ++ [d']));;
           mret d'
       | Some i =>
           put_store (mkStore (upsert i d (docs s)) (next_oid s)
                              (available s) (writes s ++ [d]));;
           mret d
       end.

End ActionExecution.

(** Modelled from the spec: [update_actionexecution_status] of
    [st2common.util.action_db], the dedicated status-update path: fetch
    the document by id, set its status, save it, return it.  The store
    does not go down in the middle of a request here, so this step does
    not fail right after a save that succeeded; nothing below is stated
    about a creation that breaks between its two writes. *)
Definition update_actionexecution_status (new_status : status)
    (actionexec_id : option ObjectId) : M ActionExecutionDB :=
  match actionexec_id with
  | None => raise ValueError
  | Some i =>
      s ← get_store;
      if negb (available s) then raise StorageError
      else match List.find (has_id i) (docs s) with
           | None => raise DoesNotExist
           | Some d =>
               ActionExecution.add_or_update (set_db_status (Some new_status) d)
           end
  end.

(** ** The controller *)

(** [str(e)] of an exception, as it appears in messages. *)
Definition str_exn (e : exn) : string :=
  match e with
  | AttributeError a => "object has no attribute " +:+ a
  | KeyError k => k
  | ValueError => "ValueError"
  | InvalidObjectId => "not a valid ObjectId"
  | DoesNotExist => "matching query does not exist"
  | StorageError => "storage error"
  end.

(** ['Database lookup for id="%s" resulted in exception. %s' % (id, e)] *)
Definition lookup_msg (id detail : string) : string :=
  "Database lookup for id=" +:+ String dquote id +:+ String dquote
    " resulted in exception. " +:+ detail.

(** One pass of the defaulting loop body, for one [(key, metadata)] item:
    [actionexecution.parameters] is read first, so an object without the
    attribute raises. *)
Definition assign_default (key : string) (metadata : gmap string json)
    (a : ActionExecutionAPI) : M ActionExecutionAPI :=
  match api_parameters a with
  | None => raise (AttributeError "parameters")
  | Some p =>
      if bool_decide (p !! key = None)
         && bool_decide (is_Some (metadata !! "default"))
      then match metadata !! "default" with
           | Some d =>
               if is_not_None d then mret (set_parameters (<[key := d]> p) a)
               else mret a
           | None => mret a
           end
      else mret a
  end.

(** [for key, metadata in six.iteritems(d): body] *)
Fixpoint for_items {V S} (body : string → V → S → M S)
    (items : list (string * V)) (s : S) : M S :=
  match items with
  | [] => mret s
  | (k, v) :: r => s' ← body k v s; for_items body r s'
  end.

Module ActionExecutionsController.
Section Handlers.

Context `{Collab : Collaborators}.

Definition __get_by_id (id : string) : M ActionExecutionDB := λ w,
  match ActionExecution.get_by_id id w with
  | (Ok d, w') => (Ok d, w')
  | (Abort _ m, w') =>
      let msg := lookup_msg id m in
      (LOG EXCEPTION msg;; abort NOT_FOUND msg) w'
  | (Raise e, w') =>
      let msg := lookup_msg id (str_exn e) in
      (LOG EXCEPTION msg;; abort NOT_FOUND msg) w'
  end.

(** [kw] stands for the extra field filters, as the store applies them to
    a document; the keywords the controller passes itself ([order_by],
    [action__id], [action__name]) are not among them. *)
Definition _get_action_executions (action_id action_name : option string)
    (limit : option Z) (kw : ActionExecutionDB → bool)
    : M (list ActionExecutionDB) :=
  match action_id, action_name with
  | Some aid, _ =>
      LOG DEBUG "Using action_id=%s to get action executions";;
      ActionExecution.query
        (λ d, bool_decide (ref_id (db_action d) = Some aid) && kw d)
        ByStartDesc limit
  | None, Some aname =>
      LOG DEBUG "Using action_name=%s to get action executions";;
      ActionExecution.query
        (λ d, bool_decide (ref_name (db_action d) = Some aname) && kw d)
        ByStartDesc limit
  | None, None =>
      LOG DEBUG "Retrieving all action executions";;
      ActionExecution.get_all kw ByStartDesc limit
  end.

(** [{'actionexecution_id': str(actionexecution_id)}] *)
Definition _create_liveaction_data (actionexecution_id : ObjectId)
    : gmap string string :=
  {[ "actionexecution_id" := py_str actionexecution_id ]}.

Definition get_one (id : string) : M ActionExecutionAPI :=
  LOG INFO "GET /actionexecutions/ with id=%s";;
  actionexec_db ← __get_by_id id;
  let actionexec_api := from_model actionexec_db in
  LOG DEBUG "GET /actionexecutions/ with id=%s, client_result=%s";;
  mret actionexec_api.

(** [limit = None]: the caller gave no [limit], the default ['50'] is
    used. *)
Definition get_all (action_id action_name : option string)
    (limit : option string) (kw : ActionExecutionDB → bool)
    : M (list ActionExecutionAPI) :=
  let limit := default "50" limit in
  LOG INFO "GET all /actionexecutions/ with action_name=%s, action_id=%s, and limit=%s";;
  match py_int limit with
  | None => raise ValueError
  | Some n =>
      actionexec_dbs ← _get_action_executions action_id action_name (Some n) kw;
      let actionexec_apis :=
        from_model <$> sort_by ascending actionexec_dbs in
      LOG DEBUG "GET all /actionexecutions/ client_result=%s";;
      mret actionexec_apis
  end.

(** Retrieve context from request header. *)
Definition retrieve_context (headers : gmap string string)
    (a : ActionExecutionAPI) : M ActionExecutionAPI :=
  match headers !! "st2-context" with
  | Some h =>
      if bool_decide (h ≠ "") then
        let context := replace squote dquote h in
        match json_loads context with
        | Some c => mret (set_context c a)
        | None => raise ValueError
        end
      else mret a
  | None => mret a
  end.

(** The block guarded by [not hasattr(actionexecution, 'parameters')]. *)
Definition fill_in_parameters (a : ActionExecutionAPI)
    : M ActionExecutionAPI :=
  match api_parameters a with
  | None =>
      LOG WARNING "POST /actionexecutions/ request did not provide parameters field.";;
      mret (set_runner_parameters ∅ a)
  | Some _ => mret a
  end.

(** Assign default parameters. *)
Definition assign_default_parameters (runnertype : RunnerTypeDB)
    (a : ActionExecutionAPI) : M ActionExecutionAPI :=
  for_items assign_default (map_to_list (runner_parameters runnertype)) a.

(** [actionexecution.parameters] *)
Definition getattr_parameters (a : ActionExecutionAPI)
    : M (gmap string json) :=
  match api_parameters a with
  | None => raise (AttributeError "parameters")
  | Some p => mret p
  end.

(** Everything of [post] after the action is found and enabled. *)
Definition create (action_db : ActionDB) (a : ActionExecutionAPI)
    : M ActionExecutionAPI :=
  match runner_type action_db !! "name" with
  | None => raise (KeyError "name")
  | Some rname =>
      match get_runnertype_by_name rname with
      | None => raise DoesNotExist
      | Some runnertype =>
          LOG DEBUG "POST /actionexecutions/ Runner=%s";;
          a ← assign_default_parameters runnertype a;
          let schema := get_parameter_schema action_db in
          parameters ← getattr_parameters a;
          LOG DEBUG "POST /actionexecutions/ Validation for parameters=%s & schema=%s";;
          match jsonschema_validate parameters schema with
          | Some e =>
              LOG ERROR "POST /actionexecutions/ Parameter validation failed. %s";;
              abort BAD_REQUEST e
          | None =>
              LOG DEBUG "POST /actionexecutions/ Parameter validation passed.";;
              let a := set_status ACTIONEXEC_STATUS_INIT a in
              let actionexec_db := to_model a in
              actionexec_db ← ActionExecution.add_or_update actionexec_db;
              LOG AUDIT "ActionExecution created. ActionExecution=%s. ";;
              let actionexec_id := db_id actionexec_db in
              let actionexec_status := ACTIONEXEC_STATUS_SCHEDULED in
              actionexec_db ← update_actionexecution_status
                                actionexec_status actionexec_id;
              let actionexec_api := from_model actionexec_db in
              LOG DEBUG "POST /actionexecutions/ client_result=%s";;
              mret actionexec_api
          end
      end
  end.

Definition post (headers : gmap string string) (now : Z)
    (actionexecution : ActionExecutionAPI) : M ActionExecutionAPI :=
  LOG INFO "POST /actionexecutions/ with actionexec data=%s";;
  let a := set_start_timestamp now actionexecution in
  a ← retrieve_context headers a;
  a ← fill_in_parameters a;
  let '(action_db, action_dict) := get_action_by_dict (api_action a) in
  LOG DEBUG "POST /actionexecutions/ Action=%s";;
  match action_db with
  | None =>
      LOG ERROR ("POST /actionexecutions/ Action for "
                   +:+ String dquote ("%s" +:+ String dquote
                                        " cannot be found."));;
      abort NOT_FOUND "Unable to find action."
  | Some action_db =>
      let a := set_action action_dict a in
      if negb (enabled action_db) then
        LOG ERROR "POST /actionexecutions/ Unable to create Action Execution for a disabled Action. Action is: %s";;
        abort FORBIDDEN "Action is disabled."
      else create action_db a
  end.

Definition put (id : string) (now : Z)
    (actionexecution : ActionExecutionAPI) : M ActionExecutionAPI :=
  let a := set_start_timestamp now actionexecution in
  actionexec_db ← __get_by_id id;
  let new_actionexec_db := to_model a in
  let actionexec_db :=
    if bool_decide (db_status actionexec_db ≠ db_status new_actionexec_db)
    then set_db_status (db_status new_actionexec_db) actionexec_db
    else actionexec_db in
  let actionexec_db :=
    if py_ne (db_result actionexec_db) (db_result new_actionexec_db)
    then set_db_result (db_result new_actionexec_db) actionexec_db
    else actionexec_db in
  actionexec_db ← ActionExecution.add_or_update actionexec_db;
  let actionexec_api := from_model actionexec_db in
  mret actionexec_api.

End Handlers.
End ActionExecutionsController.

Import ActionExecutionsController.

(** ** The defaulting loop *)

(** The default a parameter's metadata declares: present and not [None]. *)
Definition default_of (metadata : gmap string json) : option json :=
  match metadata !! "default" with
  | Some d => if is_not_None d then Some d else None
  | None => None
  end.

(** The parameters after the loop: the caller's, and under every other
    key the runner's declared default. *)
Definition merged_parameters (rp : gmap string (gmap string json))
    (p : gmap string json) : gmap string json :=
  p ∪ omap default_of rp.

(** The dict the loop body leaves for one item. *)
Definition step_default (key : string) (metadata : gmap string json)
    (p : gmap string json) : gmap string json :=
  match p !! key, default_of metadata with
  | None, Some d => <[key := d]> p
  | _, _ => p
  end.

(** The request headers are fine for [post]: no [st2-context], an empty
    one, or one that parses after the quote replacement. *)
Definition context_ok `{Collaborators} (headers : gmap string string) : bool :=
  match headers !! "st2-context" with
  | Some h =>
      bool_decide (h = "")
      || bool_decide (is_Some (json_loads (replace squote dquote h)))
  | None => true
  end.

(** The context such headers carry, if any. *)
Definition header_context `{Collaborators} (headers : gmap string string)
    : option json :=
  match headers !! "st2-context" with
  | Some h =>
      if bool_decide (h ≠ "") then json_loads (replace squote dquote h)
      else None
  | None => None
  end.

Definition with_context (c : option json) (a : ActionExecutionAPI)
    : ActionExecutionAPI :=
  match c with Some c => set_context c a | None => a end.

(** Every stored document has an id, handed out earlier by the counter. *)
Definition store_ok (s : Store) : bool :=
  forallb (λ d, match db_id d with
                | Some i => (i <? next_oid s)%N
                | None => false
                end) (docs s).

(** The document [post] creates from a request whose parameters are [p]
    for an action resolved to [action_dict] with runner type [rt]. *)
Definition created_doc (c : option json) (now : Z) (action_dict : ActionRef)
    (rt : RunnerTypeDB) (p : gmap string json) (i : ObjectId)
    (a : ActionExecutionAPI) : ActionExecutionDB :=
  mkDB (Some i) action_dict (merged_parameters (runner_parameters rt) p)
       (Some INIT) (api_result a) now
       (match c with Some c => Some c | None => api_context a end).

Definition ts_le (x y : ActionExecutionAPI) : Prop :=
  api_start_timestamp x ≤ api_start_timestamp y.
Definition db_ts_le (x y : ActionExecutionDB) : Prop :=
  db_start_timestamp x ≤ db_start_timestamp y.
Definition db_ts_ge (x y : ActionExecutionDB) : Prop :=
  db_start_timestamp y ≤ db_start_timestamp x.

(** The filter the storage query of [_get_action_executions] runs with. *)
Definition selected (action_id action_name : option string)
    (kw : ActionExecutionDB → bool) (d : ActionExecutionDB) : bool :=
  match action_id, action_name with
  | Some aid, _ => bool_decide (ref_id (db_action d) = Some aid) && kw d
  | None, Some aname =>
      bool_decide (ref_name (db_action d) = Some aname) && kw d
  | None, None => kw d
  end.

(** A handler that keeps the store invariant. *)
Definition keeps_ok {A} (m : M A) : Prop :=
  ∀ w, store_ok (store w) = true → store_ok (store (m w).2) = true.

(** A handler that only ever adds entries at the end of the log. *)
Definition appends_log {A} (m : M A) : Prop :=
  ∀ w, ∃ l, log (m w).2 = log w ++ l.

(** ** A concrete deployment, used to run the handlers *)
Module Demo.

Definition echo : ActionDB :=
  mkAction "a1" "echo" true {[ "name" := "shell" ]}.
Definition retired : ActionDB :=
  mkAction "a2" "retired" false {[ "name" := "shell" ]}.

(** A runner declaring the defaults [{a: 1, b: 2}]. *)
Definition shell : RunnerTypeDB :=
  mkRunnerType "shell"
    {[ "a" := {[ "default" := JNum 1 ]};
       "b" := {[ "default" := JNum 2 ]} ]}.

Definition resolve (r : ActionRef) : option ActionDB * ActionRef :=
  if bool_decide (ref_name r = Some "echo") then
    (Some echo, mkActionRef (Some "a1") (Some "echo"))
  else if bool_decide (ref_name r = Some "retired") then
    (Some retired, mkActionRef (Some "a2") (Some "retired"))
  else (None, mkActionRef None (ref_name r)).

(** The schema rejects a parameter named [bad]. *)
Definition validate (p : gmap string json) (schema : json) : option string :=
  if bool_decide (is_Some (p !! "bad")) then Some "bad is not allowed"
  else None.

(** A parser that knows two documents. *)
Definition loads (s : string) : option json :=
  if bool_decide (s = "{}") then Some (JObj [])
  else if bool_decide
            (s = String "{" (String dquote ("user" +:+ String dquote (": "
                   +:+ String dquote ("stanley" +:+ String dquote "}")))))
  then Some (JObj [("user", JStr "stanley")])
  else None.

Definition collaborators : Collaborators := {|
  get_action_by_dict := resolve;
  get_runnertype_by_name := λ n,
    if bool_decide (n = "shell") then Some shell else None;
  get_parameter_schema := λ _, JObj [];
  jsonschema_validate := validate;
  json_loads := loads
|}.

Definition request (name : string) (p : option (gmap string json))
    : ActionExecutionAPI :=
  mkAPI None (mkActionRef None (Some name)) p None None None 0 None.

Definition doc (i : N) (t : Z) (s : status) : ActionExecutionDB :=
  mkDB (Some i) (mkActionRef (Some "a1") (Some "echo")) ∅ (Some s)
       (Some (JStr "ok")) t None.

Definition store0 : Store :=
  mkStore [doc 0 30 SUCCEEDED; doc 1 10 RUNNING; doc 2 20 FAILED] 3 true [].

Definition world0 : World := mkWorld store0 [].

Definition offline : World :=
  mkWorld (mkStore (docs store0) 3 false []) [].

Definition context_header : gmap string string :=
  {[ "st2-context" := "{'user': 'stanley'}" ]}.

End Demo.

(** ** Log entries of [post] and predicates used further on *)

Definition log_post_received : LogEntry :=
  (INFO, "POST /actionexecutions/ with actionexec data=%s").
Definition log_no_parameters : LogEntry :=
  (WARNING, "POST /actionexecutions/ request did not provide parameters field.").
Definition log_action : LogEntry :=
  (DEBUG, "POST /actionexecutions/ Action=%s").
Definition log_action_missing : LogEntry :=
  (ERROR, "POST /actionexecutions/ Action for "
            +:+ String dquote ("%s" +:+ String dquote " cannot be found.")).
Definition log_action_disabled : LogEntry :=
  (ERROR, "POST /actionexecutions/ Unable to create Action Execution for a disabled Action. Action is: %s").
Definition log_runner : LogEntry :=
  (DEBUG, "POST /actionexecutions/ Runner=%s").
Definition log_validation : LogEntry :=
  (DEBUG, "POST /actionexecutions/ Validation for parameters=%s & schema=%s").
Definition log_validation_failed : LogEntry :=
  (ERROR, "POST /actionexecutions/ Parameter validation failed. %s").
Definition log_validation_passed : LogEntry :=
  (DEBUG, "POST /actionexecutions/ Parameter validation passed.").
Definition log_created : LogEntry :=
  (AUDIT, "ActionExecution created. ActionExecution=%s. ").
Definition log_post_result : LogEntry :=
  (DEBUG, "POST /actionexecutions/ client_result=%s").

(** What [post] has logged when it reaches the action checks. *)
Definition log_before_checks (a : ActionExecutionAPI) : list LogEntry :=
  log_post_received
    :: match api_parameters a with
       | None => [log_no_parameters]
       | Some _ => []
       end ++ [log_action].

(** An ASCII letter, and a string that holds one. *)
Definition is_ascii_letter (c : ascii) : bool :=
  let n := nat_of_ascii c in
  ((65 <=? n) && (n <=? 90) || (97 <=? n) && (n <=? 122))%nat.

Fixpoint has_letter (s : string) : bool :=
  match s with
  | EmptyString => false
  | String c r => is_ascii_letter c || has_letter r
  end.

Definition is_audit (e : LogEntry) : bool :=
  match e.1 with AUDIT => true | _ => false end.

(** The ids of the stored documents, in store order. *)
Definition doc_ids (s : Store) : list (option ObjectId) := db_id <$> docs s.

(** The ids are below the counter and no two documents share one. *)
Definition store_wf (s : Store) : bool :=
  store_ok s && bool_decide (NoDup (doc_ids s)).

(** * Properties *)

Lemma set_parameters_id a p :
  api_parameters a = Some p → set_parameters p a = a.
Proof. destruct a; simpl; intros ->; reflexivity. Qed.

Lemma assign_default_step key metadata a p w :
  api_parameters a = Some p →
  assign_default key metadata a w =
    (Ok (set_parameters (step_default key metadata p) a), w).
Proof.
  intros Hp. unfold assign_default, step_default, default_of. rewrite Hp.
  destruct (p !! key) as [v|] eqn:Hk; simpl.
  - by rewrite set_parameters_id.
  - destruct (metadata !! "default") as [d|] eqn:Hd; simpl.
    + destruct (is_not_None d); [done|]. by rewrite set_parameters_id.
    + by rewrite set_parameters_id.
Qed.

Lemma for_items_assign_default items : ∀ a p w,
  api_parameters a = Some p →
  for_items assign_default items a w =
    (Ok (set_parameters
           (foldl (λ q kv, step_default kv.1 kv.2 q) p items) a), w).
Proof.
  induction items as [|[k md] r IH]; intros a p w Hp; simpl.
  - by rewrite set_parameters_id.
  - unfold mbind, M_bind, bind. rewrite (assign_default_step _ _ _ p) by done.
    rewrite (IH _ (step_default k md p)) by (by destruct a).
    by destruct a.
Qed.

Lemma foldl_step_default_lookup items : ∀ (p : gmap string json) k,
  NoDup items.*1 →
  foldl (λ q kv, step_default kv.1 kv.2 q) p items !! k =
    match p !! k with
    | Some v => Some v
    | None => list_to_map (M := gmap string (gmap string json)) items !! k
                ≫= default_of
    end.
Proof.
  induction items as [|[k0 md] r IH]; intros p k Hnd; simpl.
  - rewrite lookup_empty. by destruct (p !! k).
  - apply NoDup_cons in Hnd as [Hk0 Hnd]. rewrite IH by done.
    unfold step_default. destruct (decide (k = k0)) as [->|Hne].
    + rewrite lookup_insert_eq. simpl.
      rewrite (not_elem_of_list_to_map_1 _ k0) by done.
      destruct (p !! k0) as [v|] eqn:Hp.
      * by rewrite Hp.
      * destruct (default_of md) as [d|]; [by rewrite lookup_insert_eq|].
        by rewrite Hp.
    + rewrite lookup_insert_ne by done.
      destruct (p !! k0), (default_of md); try done.
      by rewrite lookup_insert_ne.
Qed.

Lemma assign_default_parameters_Some rt a p w :
  api_parameters a = Some p →
  assign_default_parameters rt a w =
    (Ok (set_parameters (merged_parameters (runner_parameters rt) p) a), w).
Proof.
  intros Hp. unfold assign_default_parameters.
  rewrite (for_items_assign_default _ _ p) by done. do 3 f_equal.
  apply (map_eq (M := gmap string)). intros k.
  rewrite foldl_step_default_lookup by apply NoDup_fst_map_to_list.
  rewrite list_to_map_to_list. unfold merged_parameters.
  rewrite lookup_union, lookup_omap.
  destruct (p !! k), (runner_parameters rt !! k ≫= default_of); done.
Qed.

Lemma for_items_assign_default_None items a w :
  api_parameters a = None → items ≠ [] →
  for_items assign_default items a w = (Raise (AttributeError "parameters"), w).
Proof.
  intros Hp Hne. destruct items as [|[k md] r]; [done|]. simpl.
  unfold mbind, M_bind, bind, assign_default. by rewrite Hp.
Qed.

Lemma assign_default_parameters_None rt a w :
  api_parameters a = None → runner_parameters rt ≠ ∅ →
  assign_default_parameters rt a w = (Raise (AttributeError "parameters"), w).
Proof.
  intros Hp Hne. apply for_items_assign_default_None; [done|].
  intros Hnil. by apply map_to_list_empty_iff in Hnil.
Qed.

(** ** Running [post] *)

Section PostFacts.

Context `{Collab : Collaborators}.

Lemma retrieve_context_ok headers a w :
  context_ok headers = true →
  retrieve_context headers a w =
    (Ok (with_context (header_context headers) a), w).
Proof.
  unfold context_ok, header_context, retrieve_context.
  destruct (headers !! "st2-context") as [h|]; [|done].
  destruct (decide (h = "")) as [->|Hne]; [done|].
  rewrite bool_decide_false, (bool_decide_true (h ≠ "")) by done. simpl.
  intros [c Hc]%bool_decide_eq_true. by rewrite Hc.
Qed.

Lemma retrieve_context_bad headers a w :
  context_ok headers = false →
  retrieve_context headers a w = (Raise ValueError, w).
Proof.
  unfold context_ok, retrieve_context.
  destruct (headers !! "st2-context") as [h|]; [|done].
  destruct (decide (h = "")) as [->|Hne]; [done|].
  rewrite bool_decide_false, (bool_decide_true (h ≠ "")) by done. simpl.
  intros Hc%bool_decide_eq_false.
  destruct (json_loads _); [|done]. destruct Hc; eauto.
Qed.

Lemma find_fresh (s : Store) d :
  store_ok s = true →
  List.find (has_id (next_oid s)) (docs s ++ [set_db_id (next_oid s) d])
    = Some (set_db_id (next_oid s) d).
Proof.
  unfold store_ok. generalize (next_oid s) as n. intros n.
  induction (docs s) as [|x l IH]; simpl.
  - intros _. unfold has_id. simpl. by rewrite bool_decide_true.
  - intros [Hx Hl]%andb_prop. rewrite IH by done.
    unfold has_id. destruct (db_id x) as [i|]; [|done].
    apply N.ltb_lt in Hx. rewrite bool_decide_false; [done|].
    intros [= ->]. lia.
Qed.

Lemma upsert_fresh (s : Store) d d' :
  store_ok s = true →
  upsert (next_oid s) d' (docs s ++ [set_db_id (next_oid s) d])
    = docs s ++ [d'].
Proof.
  unfold store_ok. generalize (next_oid s) as n. intros n.
  induction (docs s) as [|x l IH]; simpl.
  - intros _. unfold has_id. simpl. by rewrite bool_decide_true.
  - intros [Hx Hl]%andb_prop. rewrite IH by done.
    unfold has_id. destruct (db_id x) as [i|]; [|done].
    apply N.ltb_lt in Hx. rewrite bool_decide_false; [done|].
    intros [= ->]. lia.
Qed.

(** The run of a request that passes every check. *)
Lemma post_created headers now a w p action_db action_dict rname rt :
  context_ok headers = true →
  api_parameters a = Some p →
  get_action_by_dict (api_action a) = (Some action_db, action_dict) →
  enabled action_db = true →
  runner_type action_db !! "name" = Some rname →
  get_runnertype_by_name rname = Some rt →
  jsonschema_validate (merged_parameters (runner_parameters rt) p)
    (get_parameter_schema action_db) = None →
  available (store w) = true →
  store_ok (store w) = true →
  let d := created_doc (header_context headers) now action_dict rt p
             (next_oid (store w)) a in
  let d' := set_db_status (Some SCHEDULED) d in
  outcome_of (post headers now a) w = Ok (from_model d') ∧
  store (world_after (post headers now a) w) =
    mkStore (docs (store w) ++ [d']) (N.succ (next_oid (store w))) true
            (writes (store w) ++ [d; d']).
Proof.
  intros Hctx Hp Hact Hen Hrn Hrt Hval Hav Hok d d'.
  unfold outcome_of, world_after, post.
  unfold mbind, M_bind, bind. simpl.
  rewrite retrieve_context_ok by done.
  set (a1 := with_context _ _).
  assert (Hp1 : api_parameters a1 = Some p).
  { subst a1. by destruct (header_context headers), a. }
  assert (Ha1 : api_action a1 = api_action a).
  { subst a1. by destruct (header_context headers), a. }
  unfold fill_in_parameters. rewrite Hp1. simpl. rewrite Ha1, Hact. simpl.
  rewrite Hen. simpl. unfold create. rewrite Hrn, Hrt.
  unfold mbind, M_bind, bind. simpl.
  rewrite (assign_default_parameters_Some _ _ p) by (by destruct a1).
  simpl. rewrite Hval. simpl.
  unfold ActionExecution.add_or_update, update_actionexecution_status.
  unfold mbind, M_bind, bind. simpl. rewrite Hav. simpl.
  rewrite find_fresh by done. simpl. rewrite upsert_fresh by done.
  rewrite <- app_assoc. simpl.
  assert (Hd : set_db_id (next_oid (store w))
            (to_model (set_status ACTIONEXEC_STATUS_INIT
               (set_parameters (merged_parameters (runner_parameters rt) p)
                  (set_action action_dict a1)))) = d).
  { subst d a1. unfold created_doc.
    by destruct (header_context headers), a. }
  rewrite Hd. done.
Qed.

Lemma find_appended n d (l : list ActionExecutionDB) :
  ∃ x, List.find (has_id n) (l ++ [set_db_id n d]) = Some x
       ∧ db_id x = Some n.
Proof.
  induction l as [|y l IH]; simpl.
  - exists (set_db_id n d). unfold has_id. simpl.
    by rewrite bool_decide_true.
  - unfold has_id at 1. case_bool_decide; eauto.
Qed.

Lemma post_not_found headers now a w action_dict :
  context_ok headers = true →
  get_action_by_dict (api_action a) = (None, action_dict) →
  outcome_of (post headers now a) w
    = Abort NOT_FOUND "Unable to find action."
  ∧ store (world_after (post headers now a) w) = store w.
Proof.
  intros Hctx Hact. unfold outcome_of, world_after, post.
  unfold mbind, M_bind, bind. simpl. rewrite retrieve_context_ok by done.
  set (a1 := with_context _ _).
  assert (Ha1 : api_action a1 = api_action a).
  { subst a1. by destruct (header_context headers), a. }
  unfold fill_in_parameters.
  destruct (api_parameters a1); simpl; rewrite ?Ha1, Hact; simpl;
    try (replace (api_action (set_runner_parameters ∅ a1))
           with (api_action a) by (by destruct a1);
         rewrite Hact); done.
Qed.

Lemma post_forbidden headers now a w action_db action_dict :
  context_ok headers = true →
  get_action_by_dict (api_action a) = (Some action_db, action_dict) →
  enabled action_db = false →
  outcome_of (post headers now a) w = Abort FORBIDDEN "Action is disabled."
  ∧ store (world_after (post headers now a) w) = store w.
Proof.
  intros Hctx Hact Hen. unfold outcome_of, world_after, post.
  unfold mbind, M_bind, bind. simpl. rewrite retrieve_context_ok by done.
  set (a1 := with_context _ _).
  assert (Ha1 : api_action a1 = api_action a).
  { subst a1. by destruct (header_context headers), a. }
  unfold fill_in_parameters.
  destruct (api_parameters a1); simpl; rewrite ?Ha1, Hact; simpl;
    try (replace (api_action (set_runner_parameters ∅ a1))
           with (api_action a) by (by destruct a1);
         rewrite Hact); simpl; by rewrite Hen.
Qed.

Lemma post_bad_request headers now a w p action_db action_dict rname rt e :
  context_ok headers = true →
  api_parameters a = Some p →
  get_action_by_dict (api_action a) = (Some action_db, action_dict) →
  enabled action_db = true →
  runner_type action_db !! "name" = Some rname →
  get_runnertype_by_name rname = Some rt →
  jsonschema_validate (merged_parameters (runner_parameters rt) p)
    (get_parameter_schema action_db) = Some e →
  outcome_of (post headers now a) w = Abort BAD_REQUEST e
  ∧ store (world_after (post headers now a) w) = store w.
Proof.
  intros Hctx Hp Hact Hen Hrn Hrt Hval.
  unfold outcome_of, world_after, post.
  unfold mbind, M_bind, bind. simpl.
  rewrite retrieve_context_ok by done.
  set (a1 := with_context _ _).
  assert (Hp1 : api_parameters a1 = Some p).
  { subst a1. by destruct (header_context headers), a. }
  assert (Ha1 : api_action a1 = api_action a).
  { subst a1. by destruct (header_context headers), a. }
  unfold fill_in_parameters. rewrite Hp1. simpl. rewrite Ha1, Hact. simpl.
  rewrite Hen. simpl. unfold create. rewrite Hrn, Hrt.
  unfold mbind, M_bind, bind. simpl.
  rewrite (assign_default_parameters_Some _ _ p) by (by destruct a1).
  simpl. by rewrite Hval.
Qed.

Lemma post_without_parameters headers now a w action_db action_dict rname rt :
  context_ok headers = true →
  api_parameters a = None →
  get_action_by_dict (api_action a) = (Some action_db, action_dict) →
  enabled action_db = true →
  runner_type action_db !! "name" = Some rname →
  get_runnertype_by_name rname = Some rt →
  outcome_of (post headers now a) w = Raise (AttributeError "parameters")
  ∧ store (world_after (post headers now a) w) = store w.
Proof.
  intros Hctx Hp Hact Hen Hrn Hrt.
  unfold outcome_of, world_after, post.
  unfold mbind, M_bind, bind. simpl.
  rewrite retrieve_context_ok by done.
  set (a1 := with_context _ _).
  assert (Hp1 : api_parameters a1 = None).
  { subst a1. by destruct (header_context headers), a. }
  assert (Ha1 : api_action a1 = api_action a).
  { subst a1. by destruct (header_context headers), a. }
  unfold fill_in_parameters. rewrite Hp1. simpl.
  replace (api_action (set_runner_parameters ∅ a1)) with (api_action a)
    by (by destruct a1).
  rewrite Hact. simpl. rewrite Hen. simpl. unfold create. rewrite Hrn, Hrt.
  unfold mbind, M_bind, bind. simpl. unfold assign_default_parameters.
  destruct (map_to_list (runner_parameters rt)) as [|[k md] r]; simpl.
  - unfold getattr_parameters. simpl. by rewrite Hp1.
  - unfold mbind, M_bind, bind, assign_default. simpl. by rewrite Hp1.
Qed.

(** A run of [post] either returns a record or leaves the store as it
    was. *)
Lemma post_returns_or_keeps_store headers now a w :
  (∃ r, outcome_of (post headers now a) w = Ok r)
  ∨ store (world_after (post headers now a) w) = store w.
Proof.
  destruct (context_ok headers) eqn:Hctx; cycle 1.
  { right. unfold world_after, post, mbind, M_bind, bind. simpl.
    by rewrite retrieve_context_bad. }
  destruct (get_action_by_dict (api_action a)) as [[action_db|] action_dict]
    eqn:Hact; cycle 1.
  { right. by eapply post_not_found. }
  destruct (enabled action_db) eqn:Hen; cycle 1.
  { right. by eapply post_forbidden. }
  destruct (runner_type action_db !! "name") as [rname|] eqn:Hrn;
    [destruct (get_runnertype_by_name rname) as [rt|] eqn:Hrt|].
  - destruct (api_parameters a) as [p|] eqn:Hp; cycle 1.
    { right. by eapply post_without_parameters. }
    destruct (jsonschema_validate
                (merged_parameters (runner_parameters rt) p)
                (get_parameter_schema action_db)) as [e|] eqn:Hval.
    { right. by eapply post_bad_request. }
    unfold outcome_of, world_after, post.
    unfold mbind, M_bind, bind. simpl.
    rewrite retrieve_context_ok by done.
    set (a1 := with_context _ _).
    assert (Hp1 : api_parameters a1 = Some p).
    { subst a1. by destruct (header_context headers), a. }
    assert (Ha1 : api_action a1 = api_action a).
    { subst a1. by destruct (header_context headers), a. }
    unfold fill_in_parameters. rewrite Hp1. simpl. rewrite Ha1, Hact. simpl.
    rewrite Hen. simpl. unfold create. rewrite Hrn, Hrt.
    unfold mbind, M_bind, bind. simpl.
    rewrite (assign_default_parameters_Some _ _ p) by (by destruct a1).
    simpl. rewrite Hval. simpl.
    unfold ActionExecution.add_or_update, update_actionexecution_status.
    unfold mbind, M_bind, bind. simpl.
    destruct (available (store w)) eqn:Hav; simpl; [|by right].
    match goal with
    | |- context [List.find (has_id ?n) (?l ++ [set_db_id ?n ?d])] =>
        destruct (find_appended n d l) as (x & -> & Hx)
    end.
    simpl. unfold ActionExecution.add_or_update, mbind, M_bind, bind.
    simpl. rewrite Hx. simpl. left. eauto.
  - right. unfold world_after, post, mbind, M_bind, bind. simpl.
    rewrite retrieve_context_ok by done.
    set (a1 := with_context _ _).
    assert (Ha1 : api_action a1 = api_action a).
    { subst a1. by destruct (header_context headers), a. }
    unfold fill_in_parameters.
    destruct (api_parameters a1); simpl; rewrite ?Ha1, ?Hact; simpl;
      try (replace (api_action (set_runner_parameters ∅ a1))
             with (api_action a) by (by destruct a1);
           rewrite Hact; simpl);
      rewrite Hen; simpl; unfold create; by rewrite Hrn, Hrt.
  - right. unfold world_after, post, mbind, M_bind, bind. simpl.
    rewrite retrieve_context_ok by done.
    set (a1 := with_context _ _).
    assert (Ha1 : api_action a1 = api_action a).
    { subst a1. by destruct (header_context headers), a. }
    unfold fill_in_parameters.
    destruct (api_parameters a1); simpl; rewrite ?Ha1, ?Hact; simpl;
      try (replace (api_action (set_runner_parameters ∅ a1))
             with (api_action a) by (by destruct a1);
           rewrite Hact; simpl);
      rewrite Hen; simpl; unfold create; by rewrite Hrn.
Qed.

End PostFacts.

(** ** Sorting *)

Section Sorting.

Context {A : Type} (leb : A → A → bool).
Hypothesis leb_total : ∀ x y, leb x y = false → leb y x = true.
Hypothesis leb_trans :
  ∀ x y z, leb x y = true → leb y z = true → leb x z = true.

Lemma insert_by_Permutation x l : insert_by leb x l ≡ₚ x :: l.
Proof using Type.
  induction l as [|y l IH]; simpl; [done|].
  destruct (leb x y); [done|]. rewrite IH. apply perm_swap.
Qed.

Lemma sort_by_Permutation l : sort_by leb l ≡ₚ l.
Proof using Type.
  induction l as [|x l IH]; simpl; [done|].
  rewrite insert_by_Permutation. by rewrite IH.
Qed.

Lemma sort_by_length l : length (sort_by leb l) = length l.
Proof using Type. by rewrite sort_by_Permutation. Qed.

Lemma insert_by_sorted x l :
  StronglySorted (λ a b, leb a b = true) l →
  StronglySorted (λ a b, leb a b = true) (insert_by leb x l).
Proof using leb_total leb_trans.
  induction 1 as [|y l Hl IH Hy]; simpl.
  - repeat constructor.
  - destruct (leb x y) eqn:Hxy.
    + constructor; [by constructor|]. constructor; [done|].
      eapply Forall_impl; [exact Hy|]. intros z Hz. by eapply leb_trans.
    + constructor; [done|]. rewrite insert_by_Permutation.
      constructor; [by apply leb_total|done].
Qed.

Lemma sort_by_sorted l :
  StronglySorted (λ a b, leb a b = true) (sort_by leb l).
Proof using leb_total leb_trans.
  induction l as [|x l IH]; simpl; [constructor|].
  by apply insert_by_sorted.
Qed.

End Sorting.

Lemma StronglySorted_impl {A} (R1 R2 : A → A → Prop) l :
  (∀ x y, R1 x y → R2 x y) → StronglySorted R1 l → StronglySorted R2 l.
Proof.
  intros HR. induction 1 as [|x l Hl IH Hx]; constructor; [done|].
  eapply Forall_impl; [exact Hx|]. auto.
Qed.

Lemma StronglySorted_map {A B} (R1 : A → A → Prop) (R2 : B → B → Prop)
    (f : A → B) l :
  (∀ x y, R1 x y → R2 (f x) (f y)) →
  StronglySorted R1 l → StronglySorted R2 (f <$> l).
Proof.
  intros HR. induction 1 as [|x l Hl IH Hx]; simpl; constructor; [done|].
  apply Forall_fmap. eapply Forall_impl; [exact Hx|]. intros y. apply HR.
Qed.

Lemma StronglySorted_take {A} (R : A → A → Prop) n l :
  StronglySorted R l → StronglySorted R (take n l).
Proof.
  intros Hl. revert n. induction Hl as [|x l Hl IH Hx]; intros [|n]; simpl;
    try constructor; [apply IH|].
  by apply Forall_take.
Qed.

Lemma sort_by_ascending l : StronglySorted db_ts_le (sort_by ascending l).
Proof.
  eapply StronglySorted_impl; [|apply (sort_by_sorted ascending)].
  - intros x y. unfold ascending, db_ts_le. lia.
  - intros x y. unfold ascending. lia.
  - intros x y z. unfold ascending. lia.
Qed.

Lemma sort_by_descending l : StronglySorted db_ts_ge (sort_by descending l).
Proof.
  eapply StronglySorted_impl; [|apply (sort_by_sorted descending)].
  - intros x y. unfold descending, db_ts_ge. lia.
  - intros x y. unfold descending. lia.
  - intros x y z. unfold descending. lia.
Qed.

(** ** Decimal strings *)

Lemma py_str_nonempty n : py_str n ≠ "".
Proof. unfold py_str. by destruct (N.to_uint n). Qed.

Lemma to_uint_nonnil n : N.to_uint n ≠ Decimal.Nil.
Proof.
  destruct n as [|p]; [done|]. apply DecimalPos.Unsigned.to_uint_nonnil.
Qed.

Lemma lstrip_digits d :
  lstrip (NilEmpty.string_of_uint d) = NilEmpty.string_of_uint d.
Proof. by destruct d. Qed.

Lemma rstrip_digits d :
  rstrip (NilEmpty.string_of_uint d) = NilEmpty.string_of_uint d.
Proof.
  induction d; simpl; try done; rewrite IHd; by destruct d.
Qed.

Lemma strip_py_str n : strip (py_str n) = py_str n.
Proof.
  unfold strip, py_str, NilZero.string_of_uint.
  destruct (N.to_uint n) eqn:Hn; try done;
    by rewrite lstrip_digits, rstrip_digits.
Qed.

Lemma py_int_py_str n : py_int (py_str n) = Some (Z.of_N n).
Proof.
  unfold py_int. rewrite strip_py_str.
  assert (Hi : NilZero.int_of_string (py_str n)
               = Some (Decimal.Pos (N.to_uint n))).
  { apply (NilZero.isi (Decimal.Pos (N.to_uint n))); [|done].
    intros [= Hn]. by apply to_uint_nonnil in Hn. }
  assert (Hz : Z.of_int (Decimal.Pos (N.to_uint n)) = Z.of_N n).
  { simpl. unfold Z.of_uint. rewrite <- (DecimalN.Unsigned.of_to n) at 2.
    unfold N.of_uint. by destruct (Pos.of_uint (N.to_uint n)). }
  destruct (py_str n) as [|c r] eqn:Hs; [by apply py_str_nonempty in Hs|].
  assert (c ≠ "+"%char) as Hc.
  { unfold py_str, NilZero.string_of_uint in Hs.
    destruct (N.to_uint n); simpl in Hs; by inversion Hs. }
  destruct c as [[] [] [] [] [] [] [] []]; try (by rewrite Hi, <- Hz).
  done.
Qed.

Lemma parse_oid_py_str n : parse_oid (py_str n) = Some n.
Proof.
  unfold parse_oid, py_str.
  rewrite NilZero.usu by apply to_uint_nonnil. simpl.
  by rewrite DecimalN.Unsigned.of_to.
Qed.

Lemma replace_get old new s n :
  String.get n (replace old new s)
    = (λ c, if Ascii.eqb c old then new else c) <$> String.get n s.
Proof.
  revert n. induction s as [|c r IH]; intros n; simpl; [done|].
  destruct n; [done|]. apply IH.
Qed.

Lemma replace_length old new s :
  String.length (replace old new s) = String.length s.
Proof. induction s as [|c r IH]; simpl; [done|]. by rewrite IH. Qed.

(** ** The log only grows *)

Create HintDb applog discriminated.

Lemma appends_ret {A} (a : A) : appends_log (mret a).
Proof. intros w. exists []. simpl. by rewrite app_nil_r. Qed.

Lemma appends_abort {A} c msg : appends_log (abort (A := A) c msg).
Proof. intros w. exists []. simpl. by rewrite app_nil_r. Qed.

Lemma appends_raise {A} e : appends_log (raise (A := A) e).
Proof. intros w. exists []. simpl. by rewrite app_nil_r. Qed.

Lemma appends_LOG l msg : appends_log (LOG l msg).
Proof. intros w. by exists [(l, msg)]. Qed.

Lemma appends_get_store : appends_log get_store.
Proof. intros w. exists []. simpl. by rewrite app_nil_r. Qed.

Lemma appends_put_store s : appends_log (put_store s).
Proof. intros w. exists []. simpl. by rewrite app_nil_r. Qed.

Lemma appends_bind {A B} (m : M A) (k : A → M B) :
  appends_log m → (∀ a, appends_log (k a)) → appends_log (m ≫= k).
Proof.
  intros Hm Hk w. unfold mbind, M_bind, bind.
  destruct (Hm w) as [l Hl]. destruct (m w) as [[a|c msg|e] w']; simpl in *;
    [|by eauto..].
  destruct (Hk a w') as [l' Hl']. exists (l ++ l').
  by rewrite Hl', Hl, app_assoc.
Qed.

#[global] Hint Resolve appends_ret appends_abort appends_raise appends_LOG
  appends_get_store appends_put_store : applog.
#[global] Hint Extern 2 (appends_log (_ ≫= _)) =>
  apply appends_bind; [|intros ?] : applog.

Lemma appends_add_or_update d : appends_log (ActionExecution.add_or_update d).
Proof.
  unfold ActionExecution.add_or_update. apply appends_bind; [auto with applog|].
  intros s. destruct (negb (available s)); [auto with applog|].
  destruct (db_id d); auto with applog.
Qed.

#[global] Hint Resolve appends_add_or_update : applog.

Lemma appends_update_actionexecution_status st i :
  appends_log (update_actionexecution_status st i).
Proof.
  unfold update_actionexecution_status. destruct i; [|auto with applog].
  apply appends_bind; [auto with applog|]. intros s.
  destruct (negb (available s)); [auto with applog|].
  destruct (List.find _ _); auto with applog.
Qed.

Lemma appends_for_items items : ∀ a, appends_log (for_items assign_default items a).
Proof.
  induction items as [|[k md] r IH]; intros a; simpl; [auto with applog|].
  apply appends_bind; [|done]. unfold assign_default.
  destruct (api_parameters a); [|auto with applog].
  destruct (_ && _); [|auto with applog].
  destruct (md !! "default") as [d|]; [|auto with applog].
  destruct (is_not_None d); auto with applog.
Qed.

#[global] Hint Resolve appends_update_actionexecution_status
  appends_for_items : applog.

Lemma bind_Ok {A B} (m : M A) (k : A → M B) w x w' :
  m w = (Ok x, w') → (m ≫= k) w = k x w'.
Proof. intros Hm. unfold mbind, M_bind, bind. by rewrite Hm. Qed.

Lemma bind_LOG {B} l msg (k : unit → M B) w :
  (LOG l msg ≫= k) w = k tt (mkWorld (store w) (log w ++ [(l, msg)])).
Proof. reflexivity. Qed.

Lemma log_after_bind {A B} (m : M A) (k : A → M B) w x w' e :
  m w = (Ok x, w') → (∀ a, appends_log (k a)) → e ∈ log w' →
  e ∈ log ((m ≫= k) w).2.
Proof.
  intros Hm Hk He. rewrite (bind_Ok _ _ _ _ _ Hm).
  destruct (Hk x w') as [l ->]. set_solver.
Qed.

Lemma appends_create `{Collaborators} action_db a :
  appends_log (create action_db a).
Proof.
  unfold create. destruct (runner_type action_db !! "name"); [|auto with applog].
  destruct (get_runnertype_by_name _); [|auto with applog].
  apply appends_bind; [auto with applog|]. intros _.
  apply appends_bind; [unfold assign_default_parameters; auto with applog|].
  intros a'. apply appends_bind.
  { unfold getattr_parameters. destruct (api_parameters a'); auto with applog. }
  intros p. apply appends_bind; [auto with applog|]. intros _.
  destruct (jsonschema_validate _ _); auto 10 with applog.
Qed.

(** * The claims *)

(** ** Creation: [post] *)

(** C1: in [post], every parameter the runner type declares with a
    non-null default and the caller did not supply gets that default,
    every value the caller supplied is kept, and this merged dict is what
    is validated and what is persisted.  With the runner defaults
    [{a: 1, b: 2}] and a request supplying [{a: 5}] the merged parameters
    are [{a: 5, b: 2}]. *)
Theorem post_injects_runner_defaults `{Collab : Collaborators} :
  (∀ headers now a w p action_db action_dict rname rt,
     context_ok headers = true →
     api_parameters a = Some p →
     get_action_by_dict (api_action a) = (Some action_db, action_dict) →
     enabled action_db = true →
     runner_type action_db !! "name" = Some rname →
     get_runnertype_by_name rname = Some rt →
     let rp := runner_parameters rt in
     let merged := merged_parameters rp p in
     let schema := get_parameter_schema action_db in
     (∀ a' w', api_parameters a' = Some p →
        assign_default_parameters rt a' w'
          = (Ok (set_parameters merged a'), w'))
     ∧ (∀ k v, p !! k = Some v → merged !! k = Some v)
     ∧ (∀ k metadata d,
          p !! k = None → rp !! k = Some metadata →
          metadata !! "default" = Some d → d ≠ JNull →
          merged !! k = Some d)
     ∧ (∀ e, jsonschema_validate merged schema = Some e →
          outcome_of (post headers now a) w = Abort BAD_REQUEST e)
     ∧ (jsonschema_validate merged schema = None →
        available (store w) = true → store_ok (store w) = true →
        ∃ d0 d,
          outcome_of (post headers now a) w = Ok (from_model d)
          ∧ api_parameters (from_model d) = Some merged
          ∧ db_parameters d0 = merged ∧ db_parameters d = merged
          ∧ docs (store (world_after (post headers now a) w))
              = docs (store w) ++ [d]
          ∧ writes (store (world_after (post headers now a) w))
              = writes (store w) ++ [d0; d]))
  ∧ (∀ w, assign_default_parameters Demo.shell
            (Demo.request "echo" (Some {[ "a" := JNum 5 ]})) w
          = (Ok (Demo.request "echo"
                   (Some {[ "a" := JNum 5; "b" := JNum 2 ]})), w)).
Proof.
  split.
  - intros headers now a w p action_db action_dict rname rt
      Hctx Hp Hact Hen Hrn Hrt rp merged schema.
    split; [|split; [|split; [|split]]].
    + intros a' w' Hp'. by apply assign_default_parameters_Some.
    + intros k v Hk. subst merged. unfold merged_parameters.
      by rewrite lookup_union, Hk, union_Some_l.
    + intros k metadata d Hk Hmd Hd Hnull. subst merged.
      unfold merged_parameters.
      rewrite lookup_union, Hk, lookup_omap, Hmd. simpl.
      unfold default_of. rewrite Hd. by destruct d.
    + intros e Hval. by eapply post_bad_request.
    + intros Hval Hav Hok.
      destruct (post_created headers now a w p action_db action_dict rname rt)
        as [Ho Hs]; try done.
      exists (created_doc (header_context headers) now action_dict rt p
                (next_oid (store w)) a).
      eexists. split; [exact Ho|]. rewrite Hs. by simpl.
  - intros w. by rewrite (assign_default_parameters_Some _ _ {[ "a" := JNum 5 ]}).
Qed.

Lemma post_injects_runner_defaults_witness :
  ∃ d, outcome_of (post (Collab := Demo.collaborators) ∅ 99
                     (Demo.request "echo" (Some {[ "a" := JNum 5 ]})))
         Demo.world0 = Ok (from_model d)
       ∧ db_parameters d = {[ "a" := JNum 5; "b" := JNum 2 ]}.
Proof.
  pose proof (proj1 (post_injects_runner_defaults (Collab := Demo.collaborators))
                ∅ 99 (Demo.request "echo" (Some {[ "a" := JNum 5 ]}))
                Demo.world0 {[ "a" := JNum 5 ]} Demo.echo
                (mkActionRef (Some "a1") (Some "echo")) "shell" Demo.shell)
    as Hpost.
  destruct Hpost as (_ & _ & _ & _ & Hpersist); try (vm_compute; reflexivity).
  destruct Hpersist as (d0 & d & Ho & _ & _ & Hd & _);
    try (vm_compute; reflexivity).
  exists d. split; [exact Ho|]. rewrite Hd. reflexivity.
Defined.

(** C2: a creation request that resolves to an enabled action and passes
    parameter validation is first saved with status INIT, then moved to
    SCHEDULED by [update_actionexecution_status]; the record returned has
    status SCHEDULED and a non-empty id. *)
Theorem post_persists_init_then_scheduled `{Collab : Collaborators}
    headers now a w p action_db action_dict rname rt :
  context_ok headers = true →
  api_parameters a = Some p →
  get_action_by_dict (api_action a) = (Some action_db, action_dict) →
  enabled action_db = true →
  runner_type action_db !! "name" = Some rname →
  get_runnertype_by_name rname = Some rt →
  jsonschema_validate (merged_parameters (runner_parameters rt) p)
    (get_parameter_schema action_db) = None →
  available (store w) = true →
  store_ok (store w) = true →
  ∃ d r,
    let d' := set_db_status (Some SCHEDULED) d in
    let saved :=
      mkStore (docs (store w) ++ [d]) (N.succ (next_oid (store w))) true
              (writes (store w) ++ [d]) in
    let final := store (world_after (post headers now a) w) in
    (* the first write: status INIT, under a fresh id *)
    db_status d = Some INIT
    ∧ db_id d = Some (next_oid (store w))
    (* the status-update path turns the saved store into the final one *)
    ∧ (∀ lg, update_actionexecution_status ACTIONEXEC_STATUS_SCHEDULED
               (db_id d) (mkWorld saved lg) = (Ok d', mkWorld final lg))
    ∧ writes final = writes (store w) ++ [d; d']
    ∧ docs final = docs (store w) ++ [d']
    (* the answer *)
    ∧ outcome_of (post headers now a) w = Ok r
    ∧ r = from_model d'
    ∧ api_status r = Some SCHEDULED
    ∧ ∃ id, api_id r = Some id ∧ id ≠ "".
Proof.
  intros Hctx Hp Hact Hen Hrn Hrt Hval Hav Hok.
  destruct (post_created headers now a w p action_db action_dict rname rt)
    as [Ho Hs]; try done.
  set (d := created_doc (header_context headers) now action_dict rt p
              (next_oid (store w)) a) in *.
  exists d, (from_model (set_db_status (Some SCHEDULED) d)).
  simpl. rewrite Hs. simpl. repeat split; try done.
  - intros lg. unfold update_actionexecution_status. simpl.
    unfold mbind, M_bind, bind. simpl.
    pose proof (find_fresh (store w) d Hok) as Hf.
    pose proof (upsert_fresh (store w) d (set_db_status (Some SCHEDULED) d) Hok)
      as Hu.
    replace (set_db_id (next_oid (store w)) d) with d in Hf, Hu by done.
    rewrite Hf. unfold ActionExecution.add_or_update.
    unfold mbind, M_bind, bind. simpl.
    unfold ACTIONEXEC_STATUS_SCHEDULED. rewrite Hu.
    by rewrite <- app_assoc.
  - exists (py_str (next_oid (store w))). split; [done|].
    apply py_str_nonempty.
Qed.

Lemma post_persists_init_then_scheduled_witness :
  ∃ r, outcome_of (post (Collab := Demo.collaborators) Demo.context_header 99
                     (Demo.request "echo" (Some {[ "a" := JNum 5 ]})))
         Demo.world0 = Ok r
       ∧ api_status r = Some SCHEDULED ∧ api_id r = Some "3".
Proof.
  pose proof (post_persists_init_then_scheduled (Collab := Demo.collaborators)
                Demo.context_header 99
                (Demo.request "echo" (Some {[ "a" := JNum 5 ]}))
                Demo.world0 {[ "a" := JNum 5 ]} Demo.echo
                (mkActionRef (Some "a1") (Some "echo")) "shell" Demo.shell)
    as Hpost.
  destruct Hpost as (d & r & _ & Hid & _ & _ & _ & Ho & Hr & Hst & _);
    try (vm_compute; reflexivity).
  exists r. split; [exact Ho|]. split; [exact Hst|].
  rewrite Hr. simpl. rewrite Hid. reflexivity.
Defined.

(** C3 (amended): provided the [st2-context] header is absent, empty or
    parses, an action that cannot be resolved gives NotFound, a disabled
    one Forbidden, parameters that fail validation BadRequest, and in each
    of the three cases the store is what it was: no document, no write.
    A header that is not empty and does not parse ends [post] with the
    parser's [ValueError] before any of these checks, also without a
    write. *)
Theorem post_rejections_persist_nothing `{Collab : Collaborators}
    headers now a w :
  (context_ok headers = true →
   (∀ action_dict,
      get_action_by_dict (api_action a) = (None, action_dict) →
      outcome_of (post headers now a) w
        = Abort NOT_FOUND "Unable to find action."
      ∧ store (world_after (post headers now a) w) = store w)
   ∧ (∀ action_db action_dict,
        get_action_by_dict (api_action a) = (Some action_db, action_dict) →
        enabled action_db = false →
        outcome_of (post headers now a) w
          = Abort FORBIDDEN "Action is disabled."
        ∧ store (world_after (post headers now a) w) = store w)
   ∧ (∀ p action_db action_dict rname rt e,
        api_parameters a = Some p →
        get_action_by_dict (api_action a) = (Some action_db, action_dict) →
        enabled action_db = true →
        runner_type action_db !! "name" = Some rname →
        get_runnertype_by_name rname = Some rt →
        jsonschema_validate (merged_parameters (runner_parameters rt) p)
          (get_parameter_schema action_db) = Some e →
        outcome_of (post headers now a) w = Abort BAD_REQUEST e
        ∧ store (world_after (post headers now a) w) = store w))
  ∧ (context_ok headers = false →
     outcome_of (post headers now a) w = Raise ValueError
     ∧ store (world_after (post headers now a) w) = store w).
Proof.
  split.
  - intros Hctx. split; [|split].
    + intros action_dict Hact. by eapply post_not_found.
    + intros action_db action_dict Hact Hen. by eapply post_forbidden.
    + intros p action_db action_dict rname rt e Hp Hact Hen Hrn Hrt Hval.
      by eapply post_bad_request.
  - intros Hctx. unfold outcome_of, world_after, post, mbind, M_bind, bind.
    simpl. by rewrite retrieve_context_bad.
Qed.

Lemma post_rejections_persist_nothing_witness :
  let run headers name p :=
    post (Collab := Demo.collaborators) headers 99 (Demo.request name p)
         Demo.world0 in
  ((run ∅ "nope" (Some ∅)).1 = Abort NOT_FOUND "Unable to find action."
   ∧ store (run ∅ "nope" (Some ∅)).2 = Demo.store0)
  ∧ ((run ∅ "retired" (Some ∅)).1 = Abort FORBIDDEN "Action is disabled."
     ∧ store (run ∅ "retired" (Some ∅)).2 = Demo.store0)
  ∧ ((run ∅ "echo" (Some {[ "bad" := JNum 1 ]})).1
       = Abort BAD_REQUEST "bad is not allowed"
     ∧ store (run ∅ "echo" (Some {[ "bad" := JNum 1 ]})).2 = Demo.store0)
  ∧ ((run {[ "st2-context" := "oops" ]} "nope" (Some ∅)).1 = Raise ValueError
     ∧ store (run {[ "st2-context" := "oops" ]} "nope" (Some ∅)).2
       = Demo.store0).
Proof.
  intros run. split; [|split; [|split]].
  - destruct (post_rejections_persist_nothing (Collab := Demo.collaborators)
                ∅ 99 (Demo.request "nope" (Some ∅)) Demo.world0)
      as [Hcases _].
    destruct Hcases as (Hnf & _ & _); [vm_compute; reflexivity|].
    apply (Hnf (mkActionRef None (Some "nope"))). vm_compute. reflexivity.
  - destruct (post_rejections_persist_nothing (Collab := Demo.collaborators)
                ∅ 99 (Demo.request "retired" (Some ∅)) Demo.world0)
      as [Hcases _].
    destruct Hcases as (_ & Hfb & _); [vm_compute; reflexivity|].
    apply (Hfb Demo.retired (mkActionRef (Some "a2") (Some "retired")));
      vm_compute; reflexivity.
  - destruct (post_rejections_persist_nothing (Collab := Demo.collaborators)
                ∅ 99 (Demo.request "echo" (Some {[ "bad" := JNum 1 ]}))
                Demo.world0)
      as [Hcases _].
    destruct Hcases as (_ & _ & Hbr); [vm_compute; reflexivity|].
    apply (Hbr {[ "bad" := JNum 1 ]} Demo.echo
               (mkActionRef (Some "a1") (Some "echo")) "shell" Demo.shell);
      vm_compute; reflexivity.
  - destruct (post_rejections_persist_nothing (Collab := Demo.collaborators)
                {[ "st2-context" := "oops" ]} 99
                (Demo.request "nope" (Some ∅)) Demo.world0)
      as [_ Hbad].
    apply Hbad. vm_compute. reflexivity.
Defined.

(** C3, as first stated, fails: with a header that does not parse, a
    request for an action that cannot be resolved, for a disabled action
    or with invalid parameters gets none of NotFound, Forbidden and
    BadRequest. *)
Lemma post_rejections_need_context_counterexample :
  let run name p :=
    outcome_of (post (Collab := Demo.collaborators)
                  {[ "st2-context" := "oops" ]} 99 (Demo.request name p))
      Demo.world0 in
  (get_action_by_dict (Collaborators := Demo.collaborators)
     (api_action (Demo.request "nope" (Some ∅))) = (None, mkActionRef None (Some "nope"))
   ∧ run "nope" (Some ∅) ≠ Abort NOT_FOUND "Unable to find action.")
  ∧ (enabled Demo.retired = false
     ∧ run "retired" (Some ∅) ≠ Abort FORBIDDEN "Action is disabled.")
  ∧ (Demo.validate {[ "bad" := JNum 1 ]} (JObj []) = Some "bad is not allowed"
     ∧ run "echo" (Some {[ "bad" := JNum 1 ]})
       ≠ Abort BAD_REQUEST "bad is not allowed").
Proof.
  intros run. repeat split; try (vm_compute; reflexivity);
    intros Hrun; vm_compute in Hrun; discriminate Hrun.
Qed.

(** C7: a [post] whose request has no [parameters] attribute logs a
    warning and sets [runner_parameters] to the empty dict; [parameters]
    stays unset.  A request that has [parameters] passes unchanged. *)
Theorem post_missing_parameters_sets_runner_parameters
    `{Collab : Collaborators} headers now a w :
  let warning :=
    (WARNING,
     "POST /actionexecutions/ request did not provide parameters field.") in
  (api_parameters a = None →
   (∀ w', fill_in_parameters a w'
          = (Ok (set_runner_parameters ∅ a),
             mkWorld (store w') (log w' ++ [warning])))
   ∧ api_runner_parameters (set_runner_parameters ∅ a) = Some ∅
   ∧ api_parameters (set_runner_parameters ∅ a) = None
   ∧ (context_ok headers = true →
      warning ∈ log (world_after (post headers now a) w)))
  ∧ (∀ p, api_parameters a = Some p →
       ∀ w', fill_in_parameters a w' = (Ok a, w')).
Proof.
  intros warning. split.
  - intros Hp. split; [|split; [|split]].
    + intros w'. unfold fill_in_parameters. by rewrite Hp.
    + done.
    + by destruct a.
    + intros Hctx. unfold world_after, post. cbv zeta.
      rewrite bind_LOG.
      rewrite (bind_Ok _ _ _ _ _ (retrieve_context_ok _ _ _ Hctx)).
      set (a1 := with_context _ _).
      assert (Hp1 : api_parameters a1 = None).
      { subst a1. by destruct (header_context headers), a. }
      eapply log_after_bind.
      * unfold fill_in_parameters. rewrite Hp1. reflexivity.
      * intros a2. destruct (get_action_by_dict (api_action a2))
          as [action_db action_dict].
        apply appends_bind; [auto with applog|]. intros _.
        destruct action_db as [action_db|]; [|auto with applog].
        destruct (negb (enabled action_db)); [auto with applog|].
        apply appends_create.
      * simpl. subst warning. set_solver.
  - intros p Hp w'. unfold fill_in_parameters. by rewrite Hp.
Qed.

Lemma post_missing_parameters_sets_runner_parameters_witness :
  (WARNING, "POST /actionexecutions/ request did not provide parameters field.")
    ∈ log (world_after
             (post (Collab := Demo.collaborators) ∅ 99
                (Demo.request "echo" None)) Demo.world0).
Proof.
  destruct (post_missing_parameters_sets_runner_parameters
              (Collab := Demo.collaborators) ∅ 99
              (Demo.request "echo" None) Demo.world0) as [Hnone _].
  destruct Hnone as (_ & _ & _ & Hlog); [reflexivity|].
  apply Hlog. vm_compute. reflexivity.
Defined.

(** C8: a [post] whose request has no [parameters] attribute, for an
    enabled action whose runner type declares at least one parameter,
    fails in the defaulting loop with an unhandled [AttributeError]: not
    with NotFound, Forbidden or BadRequest, and never with a record. *)
Theorem post_without_parameters_raises `{Collab : Collaborators}
    headers now a w action_db action_dict rname rt :
  context_ok headers = true →
  api_parameters a = None →
  get_action_by_dict (api_action a) = (Some action_db, action_dict) →
  enabled action_db = true →
  runner_type action_db !! "name" = Some rname →
  get_runnertype_by_name rname = Some rt →
  runner_parameters rt ≠ ∅ →
  (∀ a' w', api_parameters a' = None →
     assign_default_parameters rt a' w'
       = (Raise (AttributeError "parameters"), w'))
  ∧ outcome_of (post headers now a) w = Raise (AttributeError "parameters")
  ∧ (∀ code msg, outcome_of (post headers now a) w ≠ Abort code msg)
  ∧ (∀ r, outcome_of (post headers now a) w ≠ Ok r)
  ∧ store (world_after (post headers now a) w) = store w.
Proof.
  intros Hctx Hp Hact Hen Hrn Hrt Hrp.
  destruct (post_without_parameters headers now a w action_db action_dict
              rname rt) as [Ho Hs]; try done.
  split; [|rewrite Ho; by repeat split].
  intros a' w' Hp'. by apply assign_default_parameters_None.
Qed.

Lemma post_without_parameters_raises_witness :
  outcome_of (post (Collab := Demo.collaborators) ∅ 99
                (Demo.request "echo" None)) Demo.world0
    = Raise (AttributeError "parameters").
Proof.
  apply (post_without_parameters_raises (Collab := Demo.collaborators)
           ∅ 99 (Demo.request "echo" None) Demo.world0 Demo.echo
           (mkActionRef (Some "a1") (Some "echo")) "shell" Demo.shell);
    try (vm_compute; reflexivity).
  intros Hempty. vm_compute in Hempty. discriminate Hempty.
Defined.

(** C10: in [post], a [st2-context] header that is present and not empty
    is parsed, after every single quote is replaced by a double quote,
    and the value becomes the record's [context]; without the header, or
    with an empty one, [context] is not assigned. *)
Theorem post_context_from_header `{Collab : Collaborators} headers a w :
  (∀ h c,
     headers !! "st2-context" = Some h → h ≠ "" →
     json_loads (replace squote dquote h) = Some c →
     retrieve_context headers a w = (Ok (set_context c a), w)
     ∧ api_context (set_context c a) = Some c
     ∧ (∀ now p action_db action_dict rname rt,
          api_parameters a = Some p →
          get_action_by_dict (api_action a) = (Some action_db, action_dict) →
          enabled action_db = true →
          runner_type action_db !! "name" = Some rname →
          get_runnertype_by_name rname = Some rt →
          jsonschema_validate (merged_parameters (runner_parameters rt) p)
            (get_parameter_schema action_db) = None →
          available (store w) = true →
          store_ok (store w) = true →
          ∃ r d, outcome_of (post headers now a) w = Ok r
                 ∧ api_context r = Some c
                 ∧ last (docs (store (world_after (post headers now a) w)))
                     = Some d
                 ∧ db_context d = Some c))
  ∧ (headers !! "st2-context" = None ∨ headers !! "st2-context" = Some "" →
     retrieve_context headers a w = (Ok a, w))
  ∧ (∀ s n,
       String.get n (replace squote dquote s)
         = (λ ch, if Ascii.eqb ch squote then dquote else ch)
             <$> String.get n s)
  ∧ (∀ s, String.length (replace squote dquote s) = String.length s).
Proof.
  split; [|split; [|split]].
  - intros h c Hh Hne Hc.
    assert (Hctx : context_ok headers = true).
    { unfold context_ok. rewrite Hh. apply orb_true_iff. right.
      apply bool_decide_eq_true. eauto. }
    assert (Hhc : header_context headers = Some c).
    { unfold header_context. rewrite Hh. by rewrite bool_decide_true. }
    split; [|split; [done|]].
    + rewrite retrieve_context_ok by done. by rewrite Hhc.
    + intros now p action_db action_dict rname rt Hp Hact Hen Hrn Hrt Hval
        Hav Hok.
      destruct (post_created headers now a w p action_db action_dict rname rt)
        as [Ho Hs]; try done.
      eexists _, _. split; [exact Ho|]. rewrite Hs, Hhc. simpl.
      split; [done|]. by rewrite last_snoc.
  - intros [Hh|Hh]; unfold retrieve_context; by rewrite Hh.
  - intros s n. apply replace_get.
  - intros s. apply replace_length.
Qed.

Lemma post_context_from_header_witness :
  (∃ r, outcome_of (post (Collab := Demo.collaborators) Demo.context_header 99
                      (Demo.request "echo" (Some ∅))) Demo.world0 = Ok r
        ∧ api_context r = Some (JObj [("user", JStr "stanley")]))
  ∧ retrieve_context (Collab := Demo.collaborators) ∅
      (Demo.request "echo" (Some ∅)) Demo.world0
    = (Ok (Demo.request "echo" (Some ∅)), Demo.world0).
Proof.
  split.
  - destruct (post_context_from_header (Collab := Demo.collaborators)
                Demo.context_header (Demo.request "echo" (Some ∅))
                Demo.world0)
      as [Hpresent _].
    destruct (Hpresent "{'user': 'stanley'}" (JObj [("user", JStr "stanley")]))
      as (_ & _ & Hpost); try (vm_compute; reflexivity).
    { intros Hempty. discriminate Hempty. }
    destruct (Hpost 99 ∅ Demo.echo (mkActionRef (Some "a1") (Some "echo"))
                "shell" Demo.shell) as (r & d & Ho & Hc & _);
      try (vm_compute; reflexivity).
    exists r. split; [exact Ho|exact Hc].
  - destruct (post_context_from_header (Collab := Demo.collaborators)
                ∅ (Demo.request "echo" (Some ∅)) Demo.world0)
      as (_ & Habsent & _).
    apply Habsent. left. vm_compute. reflexivity.
Defined.

(** ** Listing: [get_all] *)

Section Listing.

Variables (action_id action_name : option string).
Variable kw : ActionExecutionDB → bool.

Lemma _get_action_executions_run limit w :
  available (store w) = true →
  outcome_of (_get_action_executions action_id action_name limit kw) w
    = Ok (apply_limit limit
            (sort_by descending (List.filter (selected action_id action_name kw) (docs (store w))))).
Proof using Type.
  intros Hav. unfold outcome_of, _get_action_executions, selected.
  destruct action_id as [aid|], action_name as [aname|];
    unfold ActionExecution.get_all, ActionExecution.query,
      mbind, M_bind, bind; simpl; by rewrite Hav.
Qed.

Lemma _get_action_executions_offline limit w :
  available (store w) = false →
  outcome_of (_get_action_executions action_id action_name limit kw) w
    = Raise StorageError.
Proof using Type.
  intros Hav. unfold outcome_of, _get_action_executions.
  destruct action_id as [aid|], action_name as [aname|];
    unfold ActionExecution.get_all, ActionExecution.query,
      mbind, M_bind, bind; simpl; by rewrite Hav.
Qed.

Lemma get_all_run limit n w :
  py_int (default "50" limit) = Some n →
  available (store w) = true →
  outcome_of (get_all action_id action_name limit kw) w
    = Ok (from_model <$>
            sort_by ascending
              (take (Z.to_nat n)
                 (sort_by descending
                    (List.filter (selected action_id action_name kw) (docs (store w)))))).
Proof using Type.
  intros Hn Hav. unfold outcome_of, get_all. rewrite bind_LOG, Hn.
  pose proof (_get_action_executions_run (Some n)
                (mkWorld (store w)
                   (log w ++ [(INFO, "GET all /actionexecutions/ with action_name=%s, action_id=%s, and limit=%s")]))
                Hav) as Hq.
  unfold outcome_of in Hq. unfold mbind, M_bind, bind.
  destruct (_get_action_executions _ _ _ _ _) as [o w']. simpl in Hq.
  by rewrite Hq.
Qed.

Lemma get_all_Ok_inv limit w rs :
  outcome_of (get_all action_id action_name limit kw) w = Ok rs →
  ∃ n, py_int (default "50" limit) = Some n ∧ available (store w) = true.
Proof using Type.
  intros Hrs. destruct (py_int (default "50" limit)) as [n|] eqn:Hn.
  - exists n. split; [done|].
    destruct (available (store w)) eqn:Hav; [done|]. exfalso.
    unfold outcome_of, get_all in Hrs. rewrite bind_LOG, Hn in Hrs.
    pose proof (_get_action_executions_offline (Some n)
                  (mkWorld (store w)
                     (log w ++ [(INFO, "GET all /actionexecutions/ with action_name=%s, action_id=%s, and limit=%s")]))
                  Hav) as Hq.
    unfold outcome_of in Hq. unfold mbind, M_bind, bind in Hrs.
    destruct (_get_action_executions _ _ _ _ _) as [o w']. simpl in Hq.
    by rewrite Hq in Hrs.
  - unfold outcome_of, get_all in Hrs. by rewrite bind_LOG, Hn in Hrs.
Qed.

End Listing.

(** C5: whatever the store holds and whatever the filters, the list
    [get_all] returns is ascending in [start_timestamp], although the
    storage query it is built from is descending; without [action_id] and
    [action_name] the query ranges over all records. *)
Theorem get_all_sorted_ascending action_id action_name limit kw w :
  (∀ rs, outcome_of (get_all action_id action_name limit kw) w = Ok rs →
         StronglySorted ts_le rs)
  ∧ (∀ n, py_int (default "50" limit) = Some n →
          available (store w) = true →
          let ds := take (Z.to_nat n)
                      (sort_by descending
                         (List.filter (selected action_id action_name kw)
                            (docs (store w)))) in
          outcome_of (_get_action_executions action_id action_name (Some n) kw) w
            = Ok ds
          ∧ StronglySorted db_ts_ge ds
          ∧ outcome_of (get_all action_id action_name limit kw) w
              = Ok (from_model <$> sort_by ascending ds)
          ∧ from_model <$> sort_by ascending ds ≡ₚ from_model <$> ds
          ∧ StronglySorted ts_le (from_model <$> sort_by ascending ds))
  ∧ (∀ n, action_id = None → action_name = None →
          py_int (default "50" limit) = Some n →
          available (store w) = true →
          (∀ d, kw d = true) →
          (length (docs (store w)) ≤ Z.to_nat n)%nat →
          ∃ rs, outcome_of (get_all action_id action_name limit kw) w = Ok rs
                ∧ rs ≡ₚ from_model <$> docs (store w)).
Proof.
  assert (Hsorted : ∀ ds, StronglySorted ts_le (from_model <$> sort_by ascending ds)).
  { intros ds. eapply StronglySorted_map; [|apply sort_by_ascending]. done. }
  split; [|split].
  - intros rs Hrs.
    destruct (get_all_Ok_inv _ _ _ _ _ _ Hrs) as (n & Hn & Hav).
    rewrite (get_all_run _ _ _ _ n) in Hrs by done.
    injection Hrs as <-. apply Hsorted.
  - intros n Hn Hav ds. split; [|split; [|split; [|split]]].
    + by rewrite _get_action_executions_run.
    + apply StronglySorted_take, sort_by_descending.
    + by rewrite (get_all_run _ _ _ _ n).
    + by rewrite sort_by_Permutation.
    + apply Hsorted.
  - intros n -> -> Hn Hav Hkw Hlen. eexists. split.
    + by rewrite (get_all_run _ _ _ _ n).
    + rewrite sort_by_Permutation.
      assert (Hf : List.filter (selected None None kw) (docs (store w))
                   = docs (store w)).
      { apply forallb_filter_id, forallb_forall. intros d _. apply Hkw. }
      rewrite Hf, take_ge by (by rewrite sort_by_length).
      by rewrite sort_by_Permutation.
Qed.

Lemma get_all_sorted_ascending_witness :
  ∃ rs, outcome_of (get_all None None None (λ _, true)) Demo.world0 = Ok rs
        ∧ StronglySorted ts_le rs
        ∧ api_start_timestamp <$> rs = [10; 20; 30]
        ∧ rs ≡ₚ from_model <$> docs Demo.store0.
Proof.
  destruct (get_all_sorted_ascending None None None (λ _, true) Demo.world0)
    as (Hsorted & Hrun & Hall).
  destruct (Hrun 50) as (_ & _ & Ho & _); try (vm_compute; reflexivity).
  destruct (Hall 50) as (rs & Hrs & Hperm); try reflexivity.
  { vm_compute. lia. }
  exists rs. split; [exact Hrs|]. split; [exact (Hsorted _ Hrs)|].
  split; [|exact Hperm].
  rewrite Ho in Hrs. injection Hrs as <-. vm_compute. reflexivity.
Defined.

(** C9: [get_all] called with [limit=N] returns at most [N] records, for
    every natural number [N]; without [limit] the limit is 50. *)
Theorem get_all_limit (N : N) action_id action_name kw w :
  py_int (py_str N) = Some (Z.of_N N)
  ∧ (∀ rs, outcome_of (get_all action_id action_name (Some (py_str N)) kw) w
             = Ok rs →
           (length rs ≤ N.to_nat N)%nat)
  ∧ (available (store w) = true →
     ∃ rs, outcome_of (get_all action_id action_name (Some (py_str N)) kw) w
             = Ok rs
           ∧ (length rs ≤ N.to_nat N)%nat)
  ∧ get_all action_id action_name None kw
      = get_all action_id action_name (Some (py_str 50)) kw
  ∧ py_int (default "50" None) = Some 50.
Proof.
  assert (Hlen : ∀ ds : list ActionExecutionDB,
            (length (from_model <$> sort_by ascending
                       (take (Z.to_nat (Z.of_N N)) ds)) ≤ N.to_nat N)%nat).
  { intros ds. rewrite length_fmap, sort_by_length, length_take. lia. }
  split; [apply py_int_py_str|]. split; [|split; [|done]].
  - intros rs Hrs.
    destruct (get_all_Ok_inv _ _ _ _ _ _ Hrs) as (n & Hn & Hav).
    rewrite (get_all_run _ _ _ _ (Z.of_N N)) in Hrs
      by (done || apply py_int_py_str).
    injection Hrs as <-. apply Hlen.
  - intros Hav. eexists. split; [|apply Hlen].
    rewrite (get_all_run _ _ _ _ (Z.of_N N)); [done| |done].
    apply py_int_py_str.
Qed.

Lemma get_all_limit_witness :
  ∃ rs, outcome_of (get_all None None (Some "2") (λ _, true)) Demo.world0
          = Ok rs
        ∧ (length rs ≤ 2)%nat.
Proof.
  destruct (get_all_limit 2 None None (λ _, true) Demo.world0)
    as (_ & _ & Hrun & _).
  apply Hrun. reflexivity.
Defined.

(** ** Fetching and updating: [get_one], [put] *)

Lemma get_by_id_run id w :
  ActionExecution.get_by_id id w =
    (if negb (available (store w)) then Raise StorageError
     else match parse_oid id with
          | None => Raise InvalidObjectId
          | Some i =>
              match List.find (has_id i) (docs (store w)) with
              | None => Raise DoesNotExist
              | Some d => Ok d
              end
          end, w).
Proof.
  unfold ActionExecution.get_by_id, mbind, M_bind, bind. simpl.
  destruct (negb (available (store w))); [done|].
  destruct (parse_oid id); [|done]. by destruct (List.find _ _).
Qed.

Lemma __get_by_id_run id w :
  __get_by_id id w =
    match outcome_of (ActionExecution.get_by_id id) w with
    | Ok d => (Ok d, w)
    | Abort _ m =>
        (Abort NOT_FOUND (lookup_msg id m),
         mkWorld (store w) (log w ++ [(EXCEPTION, lookup_msg id m)]))
    | Raise e =>
        (Abort NOT_FOUND (lookup_msg id (str_exn e)),
         mkWorld (store w)
           (log w ++ [(EXCEPTION, lookup_msg id (str_exn e))]))
    end.
Proof.
  unfold __get_by_id, outcome_of. rewrite get_by_id_run. simpl.
  by destruct (if negb _ then _ else _).
Qed.

Lemma find_has_id i l d :
  List.find (has_id i) l = Some d → db_id d = Some i.
Proof.
  intros [_ Hd]%find_some. unfold has_id in Hd.
  by apply bool_decide_eq_true in Hd.
Qed.

(** C6: [get_one] answers NotFound (404) whenever the store lookup raises,
    whatever the reason: a malformed id, a missing record and a storage
    error all end in the same answer.  When the lookup succeeds the stored
    record is returned, serialized. *)
Theorem get_one_not_found_on_any_failure id w :
  (∀ e, outcome_of (ActionExecution.get_by_id id) w = Raise e →
        outcome_of (get_one id) w
          = Abort NOT_FOUND (lookup_msg id (str_exn e))
        ∧ store (world_after (get_one id) w) = store w)
  ∧ (∀ d, outcome_of (ActionExecution.get_by_id id) w = Ok d →
          outcome_of (get_one id) w = Ok (from_model d))
  ∧ (available (store w) = false →
     outcome_of (ActionExecution.get_by_id id) w = Raise StorageError)
  ∧ (available (store w) = true → parse_oid id = None →
     outcome_of (ActionExecution.get_by_id id) w = Raise InvalidObjectId)
  ∧ (∀ i, available (store w) = true → parse_oid id = Some i →
          List.find (has_id i) (docs (store w)) = None →
          outcome_of (ActionExecution.get_by_id id) w = Raise DoesNotExist)
  ∧ (∀ i d, available (store w) = true → parse_oid id = Some i →
            List.find (has_id i) (docs (store w)) = Some d →
            outcome_of (ActionExecution.get_by_id id) w = Ok d)
  ∧ http_code NOT_FOUND = 404.
Proof.
  assert (Hrun : ∀ o,
    outcome_of (ActionExecution.get_by_id id) w = o →
    get_one id w =
      match o with
      | Ok d =>
          (Ok (from_model d),
           mkWorld (store w)
             ((log w ++ [(INFO, "GET /actionexecutions/ with id=%s")])
                ++ [(DEBUG, "GET /actionexecutions/ with id=%s, client_result=%s")]))
      | Abort _ m =>
          (Abort NOT_FOUND (lookup_msg id m),
           mkWorld (store w)
             ((log w ++ [(INFO, "GET /actionexecutions/ with id=%s")])
                ++ [(EXCEPTION, lookup_msg id m)]))
      | Raise e =>
          (Abort NOT_FOUND (lookup_msg id (str_exn e)),
           mkWorld (store w)
             ((log w ++ [(INFO, "GET /actionexecutions/ with id=%s")])
                ++ [(EXCEPTION, lookup_msg id (str_exn e))]))
      end).
  { intros o Ho. unfold get_one. rewrite bind_LOG.
    unfold mbind, M_bind, bind. rewrite __get_by_id_run.
    unfold outcome_of in *. rewrite get_by_id_run in *. simpl in *.
    rewrite Ho. by destruct o. }
  unfold outcome_of, world_after.
  split; [|split; [|split; [|split; [|split; [|split]]]]].
  - intros e He. by rewrite (Hrun _ He).
  - intros d Hd. by rewrite (Hrun _ Hd).
  - intros Hav. by rewrite get_by_id_run, Hav.
  - intros Hav Hid. by rewrite get_by_id_run, Hav, Hid.
  - intros i Hav Hid Hf. by rewrite get_by_id_run, Hav, Hid, Hf.
  - intros i d Hav Hid Hf. by rewrite get_by_id_run, Hav, Hid, Hf.
  - done.
Qed.

Lemma get_one_not_found_on_any_failure_witness :
  (∃ m, outcome_of (get_one "x") Demo.world0 = Abort NOT_FOUND m)
  ∧ (∃ m, outcome_of (get_one "7") Demo.world0 = Abort NOT_FOUND m)
  ∧ (∃ m, outcome_of (get_one "1") Demo.offline = Abort NOT_FOUND m)
  ∧ outcome_of (get_one "1") Demo.world0
      = Ok (from_model (Demo.doc 1 10 RUNNING)).
Proof.
  split; [|split; [|split]].
  - destruct (get_one_not_found_on_any_failure "x" Demo.world0)
      as (Hraise & _).
    destruct (Hraise InvalidObjectId) as [Ho _]; [reflexivity|].
    eexists. exact Ho.
  - destruct (get_one_not_found_on_any_failure "7" Demo.world0)
      as (Hraise & _).
    destruct (Hraise DoesNotExist) as [Ho _]; [reflexivity|].
    eexists. exact Ho.
  - destruct (get_one_not_found_on_any_failure "1" Demo.offline)
      as (Hraise & _).
    destruct (Hraise StorageError) as [Ho _]; [reflexivity|].
    eexists. exact Ho.
  - destruct (get_one_not_found_on_any_failure "1" Demo.world0)
      as (_ & Hfound & _).
    apply Hfound. reflexivity.
Defined.





(** ** The store invariant *)

(** The ids in the store stay below the counter through [post] and [put],
    so the freshness the creation relies on holds from an empty store on. *)
Lemma store_ok_empty av : store_ok (mkStore [] 0 av []) = true.
Proof. reflexivity. Qed.

Lemma store_ok_insert s d :
  store_ok s = true →
  store_ok (mkStore (docs s ++ [set_db_id (next_oid s) d])
              (N.succ (next_oid s)) (available s) (writes s)) = true.
Proof.
  unfold store_ok. simpl. rewrite forallb_app. simpl.
  intros Hs. apply andb_true_intro. split.
  - rewrite forallb_forall in *. intros x Hx. specialize (Hs x Hx).
    destruct (db_id x) as [i|]; [|done].
    apply N.ltb_lt in Hs. apply N.ltb_lt. lia.
  - rewrite andb_true_r. apply N.ltb_lt. lia.
Qed.

Lemma store_ok_upsert i d' l n :
  (i < n)%N → db_id d' = Some i →
  forallb (λ d, match db_id d with
                | Some j => (j <? n)%N
                | None => false
                end) l = true →
  forallb (λ d, match db_id d with
                | Some j => (j <? n)%N
                | None => false
                end) (upsert i d' l) = true.
Proof.
  intros Hi Hd'. induction l as [|x l IH]; simpl.
  - intros _. rewrite Hd'. rewrite andb_true_r. by apply N.ltb_lt.
  - intros [Hx Hl]%andb_prop. destruct (has_id i x); simpl.
    + rewrite Hd', Hl, andb_true_r. by apply N.ltb_lt.
    + by rewrite Hx, IH.
Qed.

Lemma store_ok_find s i d :
  store_ok s = true → List.find (has_id i) (docs s) = Some d →
  db_id d = Some i ∧ (i < next_oid s)%N.
Proof.
  unfold store_ok. intros Hs Hf. pose proof (find_has_id _ _ _ Hf) as Hd.
  apply find_some in Hf as [Hin _]. rewrite forallb_forall in Hs.
  specialize (Hs d Hin). rewrite Hd in Hs. by apply N.ltb_lt in Hs.
Qed.

Create HintDb storeok discriminated.

Lemma keeps_ok_ret {A} (a : A) : keeps_ok (mret a).
Proof. by intros w. Qed.

Lemma keeps_ok_abort {A} c msg : keeps_ok (abort (A := A) c msg).
Proof. by intros w. Qed.

Lemma keeps_ok_raise {A} e : keeps_ok (raise (A := A) e).
Proof. by intros w. Qed.

Lemma keeps_ok_LOG l msg : keeps_ok (LOG l msg).
Proof. by intros w. Qed.

Lemma keeps_ok_bind {A B} (m : M A) (k : A → M B) :
  keeps_ok m → (∀ a, keeps_ok (k a)) → keeps_ok (m ≫= k).
Proof.
  intros Hm Hk w Hw. unfold mbind, M_bind, bind.
  specialize (Hm w Hw). destruct (m w) as [[a|c msg|e] w']; simpl in *;
    [|done..].
  by apply Hk.
Qed.

#[global] Hint Resolve keeps_ok_ret keeps_ok_abort keeps_ok_raise
  keeps_ok_LOG : storeok.

Lemma keeps_ok_insert d :
  db_id d = None → keeps_ok (ActionExecution.add_or_update d).
Proof.
  intros Hd w Hw. unfold ActionExecution.add_or_update, mbind, M_bind, bind.
  simpl. destruct (negb (available (store w))); [done|]. rewrite Hd. simpl.
  by apply (store_ok_insert (store w) d).
Qed.

Lemma keeps_ok_update_actionexecution_status st i :
  keeps_ok (update_actionexecution_status st i).
Proof.
  intros w Hw. unfold update_actionexecution_status.
  destruct i as [i|]; [|done]. unfold mbind, M_bind, bind. simpl.
  destruct (negb (available (store w))) eqn:Hav; [done|].
  destruct (List.find _ _) as [d|] eqn:Hf; [|done].
  destruct (store_ok_find _ _ _ Hw Hf) as [Hd Hi].
  unfold ActionExecution.add_or_update, mbind, M_bind, bind. simpl.
  rewrite Hav. simpl. rewrite Hd. simpl.
  unfold store_ok in *. simpl. by apply store_ok_upsert.
Qed.

Lemma keeps_ok_for_items items :
  ∀ a, keeps_ok (for_items assign_default items a).
Proof.
  induction items as [|[k md] r IH]; intros a; simpl; [auto with storeok|].
  apply keeps_ok_bind; [|done]. unfold assign_default.
  destruct (api_parameters a); [|auto with storeok].
  destruct (_ && _); [|auto with storeok].
  destruct (md !! "default") as [d|]; [|auto with storeok].
  destruct (is_not_None d); auto with storeok.
Qed.

(** [post] keeps the invariant, whatever its outcome. *)
Lemma post_keeps_store_ok `{Collab : Collaborators} headers now a :
  keeps_ok (post headers now a).
Proof.
  unfold post. apply keeps_ok_bind; [auto with storeok|]. intros _.
  cbv zeta. apply keeps_ok_bind.
  { unfold retrieve_context. destruct (headers !! "st2-context") as [h|];
      [|auto with storeok].
    destruct (bool_decide _); [|auto with storeok].
    destruct (json_loads _); auto with storeok. }
  intros a1. apply keeps_ok_bind.
  { unfold fill_in_parameters. destruct (api_parameters a1);
      [auto with storeok|].
    apply keeps_ok_bind; auto with storeok. }
  intros a2. destruct (get_action_by_dict (api_action a2))
    as [action_db action_dict].
  apply keeps_ok_bind; [auto with storeok|]. intros _.
  destruct action_db as [action_db|];
    [|apply keeps_ok_bind; auto with storeok].
  destruct (negb (enabled action_db));
    [apply keeps_ok_bind; auto with storeok|].
  unfold create. destruct (runner_type action_db !! "name");
    [|auto with storeok].
  destruct (get_runnertype_by_name _); [|auto with storeok].
  apply keeps_ok_bind; [auto with storeok|]. intros _.
  apply keeps_ok_bind; [apply keeps_ok_for_items|]. intros a3.
  apply keeps_ok_bind.
  { unfold getattr_parameters. destruct (api_parameters a3);
      auto with storeok. }
  intros p. apply keeps_ok_bind; [auto with storeok|]. intros _.
  destruct (jsonschema_validate _ _);
    [apply keeps_ok_bind; auto with storeok|].
  apply keeps_ok_bind; [auto with storeok|]. intros _.
  apply keeps_ok_bind; [by apply keeps_ok_insert|]. intros d.
  apply keeps_ok_bind; [auto with storeok|]. intros _.
  apply keeps_ok_bind; [apply keeps_ok_update_actionexecution_status|].
  intros d'. apply keeps_ok_bind; auto with storeok.
Qed.

(** So does [put]. *)
Lemma put_keeps_store_ok id now a : keeps_ok (put id now a).
Proof.
  intros w Hw. unfold put. cbv zeta. unfold mbind at 1, M_bind, bind.
  rewrite __get_by_id_run. unfold outcome_of. rewrite get_by_id_run. simpl.
  destruct (negb (available (store w))) eqn:Hav; [done|].
  destruct (parse_oid id) as [i|]; [|done].
  destruct (List.find _ _) as [d|] eqn:Hf; [|done].
  destruct (store_ok_find _ _ _ Hw Hf) as [Hd Hi].
  set (d1 := if bool_decide (db_status d ≠ _) then _ else _).
  set (d2 := if py_ne (db_result d1) _ then _ else _).
  assert (Hd2 : db_id d2 = Some i).
  { subst d2 d1. destruct (py_ne _ _); by case_bool_decide. }
  unfold ActionExecution.add_or_update, mbind, M_bind, bind. simpl.
  rewrite Hav. simpl. rewrite Hd2. simpl.
  unfold store_ok in *. simpl. by apply store_ok_upsert.
Qed.

(** * Further properties of the controller *)

(** ** What a run of [post] is, path by path *)

Ltac finish_run :=
  rewrite ?bind_LOG; simpl; rewrite <- ?app_assoc; simpl; reflexivity.

Lemma post_run `{Collab : Collaborators} headers now a w :
  post headers now a w =
    if negb (context_ok headers) then
      (Raise ValueError, mkWorld (store w) (log w ++ [log_post_received]))
    else
      let lg := log w ++ log_before_checks a in
      match get_action_by_dict (api_action a) with
      | (None, _) =>
          (Abort NOT_FOUND "Unable to find action.",
           mkWorld (store w) (lg ++ [log_action_missing]))
      | (Some action_db, action_dict) =>
          if negb (enabled action_db) then
            (Abort FORBIDDEN "Action is disabled.",
             mkWorld (store w) (lg ++ [log_action_disabled]))
          else
            match runner_type action_db !! "name" with
            | None => (Raise (KeyError "name"), mkWorld (store w) lg)
            | Some rname =>
                match get_runnertype_by_name rname with
                | None => (Raise DoesNotExist, mkWorld (store w) lg)
                | Some rt =>
                    match api_parameters a with
                    | None =>
                        (Raise (AttributeError "parameters"),
                         mkWorld (store w) (lg ++ [log_runner]))
                    | Some p =>
                        let merged :=
                          merged_parameters (runner_parameters rt) p in
                        match jsonschema_validate merged
                                (get_parameter_schema action_db) with
                        | Some e =>
                            (Abort BAD_REQUEST e,
                             mkWorld (store w)
                               (lg ++ [log_runner; log_validation;
                                       log_validation_failed]))
                        | None =>
                            if negb (available (store w)) then
                              (Raise StorageError,
                               mkWorld (store w)
                                 (lg ++ [log_runner; log_validation;
                                         log_validation_passed]))
                            else
                              let n := next_oid (store w) in
                              let d := created_doc (header_context headers)
                                         now action_dict rt p n a in
                              match List.find (has_id n)
                                      (docs (store w) ++ [d]) with
                              | None =>
                                  (Raise DoesNotExist,
                                   mkWorld
                                     (mkStore (docs (store w) ++ [d])
                                        (N.succ n) true
                                        (writes (store w) ++ [d]))
                                     (lg ++ [log_runner; log_validation;
                                             log_validation_passed;
                                             log_created]))
                              | Some x =>
                                  let x' := set_db_status (Some SCHEDULED) x in
                                  (Ok (from_model x'),
                                   mkWorld
                                     (mkStore
                                        (upsert n x' (docs (store w) ++ [d]))
                                        (N.succ n) true
                                        (writes (store w) ++ [d; x']))
                                     (lg ++ [log_runner; log_validation;
                                             log_validation_passed;
                                             log_created; log_post_result]))
                              end
                        end
                    end
                end
            end
      end.
Proof.
  destruct (context_ok headers) eqn:Hctx; simpl; cycle 1.
  { unfold post, mbind, M_bind, bind. simpl.
    by rewrite retrieve_context_bad. }
  unfold post. rewrite bind_LOG. cbv zeta.
  rewrite (bind_Ok _ _ _ _ _ (retrieve_context_ok _ _ _ Hctx)).
  set (a1 := with_context _ _).
  assert (Hp1 : api_parameters a1 = api_parameters a).
  { subst a1. by destruct (header_context headers), a. }
  assert (Ha1 : api_action a1 = api_action a).
  { subst a1. by destruct (header_context headers), a. }
  assert (Hr1 : api_result a1 = api_result a).
  { subst a1. by destruct (header_context headers), a. }
  assert (Ht1 : api_start_timestamp a1 = now).
  { subst a1. by destruct (header_context headers), a. }
  assert (Hc1 : api_context a1
                = match header_context headers with
                  | Some c => Some c
                  | None => api_context a
                  end).
  { subst a1. by destruct (header_context headers), a. }
  unfold log_before_checks, fill_in_parameters. rewrite Hp1.
  destruct (api_parameters a) as [p|] eqn:Hp.
  - unfold mbind at 1, M_bind, bind. simpl. rewrite Ha1.
    destruct (get_action_by_dict (api_action a))
      as [[action_db|] action_dict]; rewrite bind_LOG; simpl;
      [|finish_run].
    destruct (enabled action_db); simpl; [|finish_run].
    unfold create.
    destruct (runner_type action_db !! "name") as [rname|];
      [|finish_run].
    destruct (get_runnertype_by_name rname) as [rt|];
      [|finish_run].
    rewrite bind_LOG. unfold mbind at 1, M_bind, bind.
    rewrite (assign_default_parameters_Some _ _ p) by (by destruct a1).
    simpl. unfold mbind, M_bind, bind. simpl.
    destruct (jsonschema_validate _ _) as [e|]; simpl;
      [finish_run|].
    unfold ActionExecution.add_or_update, update_actionexecution_status,
      mbind, M_bind, bind. simpl.
    destruct (available (store w)) eqn:Hav; simpl;
      [|finish_run].
    assert (Hd : set_db_id (next_oid (store w))
              (to_model (set_status ACTIONEXEC_STATUS_INIT
                 (set_parameters (merged_parameters (runner_parameters rt) p)
                    (set_action action_dict a1))))
            = created_doc (header_context headers) now action_dict rt p
                (next_oid (store w)) a).
    { unfold created_doc, to_model, set_db_id. simpl.
      by rewrite Hr1, Ht1, Hc1. }
    rewrite Hd.
    destruct (List.find _ _) as [x|] eqn:Hf; simpl;
      [|finish_run].
    unfold ActionExecution.add_or_update, mbind, M_bind, bind. simpl.
    rewrite (find_has_id _ _ _ Hf). simpl. finish_run.
  - unfold mbind at 1, M_bind, bind. rewrite bind_LOG. simpl.
    replace (api_action (set_runner_parameters ∅ a1)) with (api_action a)
      by (by destruct a1).
    destruct (get_action_by_dict (api_action a))
      as [[action_db|] action_dict]; rewrite bind_LOG; simpl;
      [|finish_run].
    destruct (enabled action_db); simpl; [|finish_run].
    unfold create.
    destruct (runner_type action_db !! "name") as [rname|];
      [|finish_run].
    destruct (get_runnertype_by_name rname) as [rt|];
      [|finish_run].
    rewrite bind_LOG. unfold mbind at 1, M_bind, bind.
    unfold assign_default_parameters.
    destruct (map_to_list (runner_parameters rt)) as [|[k md] r]; simpl.
    + unfold getattr_parameters. simpl. rewrite Hp1.
      finish_run.
    + unfold mbind, M_bind, bind, assign_default. simpl. rewrite Hp1.
      finish_run.
Qed.

(** A run of [post] that returns went through every check. *)
Lemma post_Ok_inv `{Collab : Collaborators} headers now a w r :
  outcome_of (post headers now a) w = Ok r →
  ∃ p action_db action_dict rname rt,
    context_ok headers = true
    ∧ api_parameters a = Some p
    ∧ get_action_by_dict (api_action a) = (Some action_db, action_dict)
    ∧ enabled action_db = true
    ∧ runner_type action_db !! "name" = Some rname
    ∧ get_runnertype_by_name rname = Some rt
    ∧ jsonschema_validate (merged_parameters (runner_parameters rt) p)
        (get_parameter_schema action_db) = None
    ∧ available (store w) = true.
Proof.
  unfold outcome_of. rewrite post_run.
  destruct (context_ok headers) eqn:Hctx; simpl; [|done].
  destruct (get_action_by_dict (api_action a)) as [[action_db|] action_dict]
    eqn:Hact; [|done].
  destruct (enabled action_db) eqn:Hen; simpl; [|done].
  destruct (runner_type action_db !! "name") as [rname|] eqn:Hrn; [|done].
  destruct (get_runnertype_by_name rname) as [rt|] eqn:Hrt; [|done].
  destruct (api_parameters a) as [p|] eqn:Hp; [|done].
  destruct (jsonschema_validate _ _) eqn:Hval; [done|].
  destruct (available (store w)) eqn:Hav; simpl; [|done].
  intros _. by exists p, action_db, action_dict, rname, rt.
Qed.

(** ** What a run of [put] and of [get_one] is *)

Lemma put_run id now a w :
  put id now a w =
    match outcome_of (ActionExecution.get_by_id id) w with
    | Ok d =>
        let d' := mkDB (db_id d) (db_action d) (db_parameters d)
                       (api_status a)
                       (if py_ne (db_result d) (api_result a)
                        then api_result a else db_result d)
                       (db_start_timestamp d) (db_context d) in
        match db_id d with
        | Some i =>
            (Ok (from_model d'),
             mkWorld (mkStore (upsert i d' (docs (store w)))
                        (next_oid (store w)) (available (store w))
                        (writes (store w) ++ [d'])) (log w))
        | None =>
            (Ok (from_model (set_db_id (next_oid (store w)) d')),
             mkWorld (mkStore (docs (store w)
                                 ++ [set_db_id (next_oid (store w)) d'])
                        (N.succ (next_oid (store w))) (available (store w))
                        (writes (store w)
                           ++ [set_db_id (next_oid (store w)) d']))
                     (log w))
        end
    | Abort _ m =>
        (Abort NOT_FOUND (lookup_msg id m),
         mkWorld (store w) (log w ++ [(EXCEPTION, lookup_msg id m)]))
    | Raise e =>
        (Abort NOT_FOUND (lookup_msg id (str_exn e)),
         mkWorld (store w)
           (log w ++ [(EXCEPTION, lookup_msg id (str_exn e))]))
    end.
Proof.
  unfold put. cbv zeta. unfold mbind at 1, M_bind, bind.
  rewrite __get_by_id_run. unfold outcome_of. rewrite get_by_id_run. simpl.
  destruct (negb (available (store w))) eqn:Hav; [done|].
  destruct (parse_oid id) as [i|]; [|done].
  destruct (List.find _ _) as [d|] eqn:Hf; [|done].
  set (d1 := if bool_decide (db_status d ≠ api_status a) then _ else _).
  assert (Hd1 : d1 = set_db_status (api_status a) d).
  { subst d1. case_bool_decide; [done|]. destruct d.
    unfold set_db_status. simpl in *. f_equal. symmetry.
    first [done | by apply dec_stable]. }
  rewrite Hd1. simpl.
  set (d2 := if py_ne (db_result d) (api_result a) then _ else _).
  assert (Hd2 : d2 = mkDB (db_id d) (db_action d) (db_parameters d)
                      (api_status a)
                      (if py_ne (db_result d) (api_result a)
                       then api_result a else db_result d)
                      (db_start_timestamp d) (db_context d)).
  { subst d2. by destruct (py_ne _ _). }
  rewrite Hd2. unfold ActionExecution.add_or_update, mbind, M_bind, bind.
  simpl. rewrite Hav. simpl. rewrite (find_has_id _ _ _ Hf). done.
Qed.

Lemma get_one_run id w :
  get_one id w =
    match outcome_of (ActionExecution.get_by_id id) w with
    | Ok d =>
        (Ok (from_model d),
         mkWorld (store w)
           (log w ++ [(INFO, "GET /actionexecutions/ with id=%s");
                      (DEBUG, "GET /actionexecutions/ with id=%s, client_result=%s")]))
    | Abort _ m =>
        (Abort NOT_FOUND (lookup_msg id m),
         mkWorld (store w)
           (log w ++ [(INFO, "GET /actionexecutions/ with id=%s");
                      (EXCEPTION, lookup_msg id m)]))
    | Raise e =>
        (Abort NOT_FOUND (lookup_msg id (str_exn e)),
         mkWorld (store w)
           (log w ++ [(INFO, "GET /actionexecutions/ with id=%s");
                      (EXCEPTION, lookup_msg id (str_exn e))]))
    end.
Proof.
  unfold get_one. rewrite bind_LOG. unfold mbind, M_bind, bind.
  rewrite __get_by_id_run. unfold outcome_of. rewrite !get_by_id_run. simpl.
  destruct (if negb _ then _ else _); simpl; by rewrite <- app_assoc.
Qed.

Lemma find_upsert i d l :
  db_id d = Some i → List.find (has_id i) (upsert i d l) = Some d.
Proof.
  intros Hd. induction l as [|x l IH]; simpl.
  - unfold has_id. by rewrite bool_decide_true.
  - destruct (has_id i x) eqn:Hx; simpl.
    + unfold has_id at 1. by rewrite bool_decide_true.
    + by rewrite Hx.
Qed.

Lemma find_upsert_ne i j d l :
  db_id d = Some i → i ≠ j →
  List.find (has_id j) (upsert i d l) = List.find (has_id j) l.
Proof.
  intros Hd Hne. induction l as [|x l IH]; simpl.
  - unfold has_id. rewrite bool_decide_false; [done|]. rewrite Hd. congruence.
  - destruct (has_id i x) eqn:Hx; simpl.
    + unfold has_id in *. apply bool_decide_eq_true in Hx.
      rewrite !bool_decide_false; [done|rewrite Hx|rewrite Hd]; congruence.
    + by rewrite IH.
Qed.

Lemma upsert_length i d l x :
  List.find (has_id i) l = Some x → length (upsert i d l) = length l.
Proof.
  induction l as [|y l IH]; simpl; [done|].
  destruct (has_id i y); simpl; [done|]. intros Hf. by rewrite IH.
Qed.

Lemma doc_ids_upsert i d l x :
  db_id d = Some i → List.find (has_id i) l = Some x →
  db_id <$> upsert i d l = db_id <$> l.
Proof.
  intros Hd. induction l as [|y l IH]; csimpl; [done|].
  destruct (has_id i y) eqn:Hy; csimpl.
  - intros _. unfold has_id in Hy. apply bool_decide_eq_true in Hy.
    by rewrite Hd, Hy.
  - intros Hf. f_equal. by apply IH.
Qed.

Lemma py_str_inj i j : py_str i = py_str j → i = j.
Proof.
  intros Hij. pose proof (parse_oid_py_str i) as Hi.
  rewrite Hij, parse_oid_py_str in Hi. congruence.
Qed.

(** ** Creation *)

(** X1: whatever [post] returns is a record of an enabled action whose
    parameters (the caller's plus the runner defaults) passed validation,
    with status SCHEDULED, the id the store handed out and the time of the
    call as [start_timestamp]; it is the last document of the store. *)
Theorem post_returns_checked_record `{Collab : Collaborators}
    headers now a w r :
  store_ok (store w) = true →
  outcome_of (post headers now a) w = Ok r →
  ∃ p action_db rname rt,
    get_action_by_dict (api_action a) = (Some action_db, api_action r)
    ∧ enabled action_db = true
    ∧ runner_type action_db !! "name" = Some rname
    ∧ get_runnertype_by_name rname = Some rt
    ∧ api_parameters a = Some p
    ∧ api_parameters r = Some (merged_parameters (runner_parameters rt) p)
    ∧ jsonschema_validate (merged_parameters (runner_parameters rt) p)
        (get_parameter_schema action_db) = None
    ∧ api_status r = Some SCHEDULED
    ∧ api_start_timestamp r = now
    ∧ api_id r = Some (py_str (next_oid (store w)))
    ∧ last (docs (store (world_after (post headers now a) w)))
        ≫= (λ d, Some (from_model d)) = Some r.
Proof.
  intros Hok Hr.
  destruct (post_Ok_inv _ _ _ _ _ Hr)
    as (p & action_db & action_dict & rname & rt & Hctx & Hp & Hact & Hen
        & Hrn & Hrt & Hval & Hav).
  destruct (post_created headers now a w p action_db action_dict rname rt)
    as [Ho Hs]; try done.
  rewrite Ho in Hr. injection Hr as <-. rewrite Hs. simpl.
  exists p, action_db, rname, rt. rewrite last_snoc. by repeat split.
Qed.

Lemma post_returns_checked_record_witness :
  ∃ r, outcome_of (post (Collab := Demo.collaborators) ∅ 99
                     (Demo.request "echo" (Some {[ "a" := JNum 5 ]})))
         Demo.world0 = Ok r
       ∧ api_start_timestamp r = 99 ∧ api_id r = Some "3".
Proof.
  destruct (post_created (Collab := Demo.collaborators) ∅ 99
              (Demo.request "echo" (Some {[ "a" := JNum 5 ]})) Demo.world0
              {[ "a" := JNum 5 ]} Demo.echo
              (mkActionRef (Some "a1") (Some "echo")) "shell" Demo.shell)
    as [Ho _]; try (vm_compute; reflexivity).
  eexists. split; [exact Ho|].
  destruct (post_returns_checked_record (Collab := Demo.collaborators)
              ∅ 99 (Demo.request "echo" (Some {[ "a" := JNum 5 ]}))
              Demo.world0 _ ltac:(vm_compute; reflexivity) Ho)
    as (p & action_db & rname & rt & _ & _ & _ & _ & _ & _ & _ & _ & Ht
        & Hid & _).
  split; [exact Ht|exact Hid].
Defined.

(** X2: two creations in a row get different ids. *)
Theorem post_twice_distinct_ids `{Collab : Collaborators}
    headers1 now1 a1 headers2 now2 a2 w r1 r2 :
  store_ok (store w) = true →
  outcome_of (post headers1 now1 a1) w = Ok r1 →
  outcome_of (post headers2 now2 a2)
    (world_after (post headers1 now1 a1) w) = Ok r2 →
  api_id r1 ≠ api_id r2
  ∧ api_id r1 ≠ None ∧ api_id r2 ≠ None.
Proof.
  intros Hok Hr1 Hr2.
  pose proof (post_keeps_store_ok headers1 now1 a1 w Hok) as Hok'.
  destruct (post_Ok_inv _ _ _ _ _ Hr1)
    as (p & action_db & action_dict & rname & rt & Hctx & Hp & Hact & Hen
        & Hrn & Hrt & Hval & Hav).
  destruct (post_created headers1 now1 a1 w p action_db action_dict rname rt)
    as [Ho1 Hs]; try done.
  destruct (post_Ok_inv _ _ _ _ _ Hr2)
    as (p2 & action_db2 & action_dict2 & rname2 & rt2 & Hctx2 & Hp2 & Hact2
        & Hen2 & Hrn2 & Hrt2 & Hval2 & Hav2).
  destruct (post_created headers2 now2 a2
              (world_after (post headers1 now1 a1) w) p2 action_db2
              action_dict2 rname2 rt2)
    as [Ho2 _]; try done.
  rewrite Ho1 in Hr1. rewrite Ho2 in Hr2.
  injection Hr1 as <-. injection Hr2 as <-. simpl. rewrite Hs. simpl.
  split; [|done]. intros [= Heq%py_str_inj]. lia.
Qed.

Lemma post_twice_distinct_ids_witness :
  ∃ r1 r2,
    outcome_of (post (Collab := Demo.collaborators) ∅ 99
                  (Demo.request "echo" (Some ∅))) Demo.world0 = Ok r1
    ∧ outcome_of (post (Collab := Demo.collaborators) ∅ 100
                    (Demo.request "echo" (Some ∅)))
        (world_after (post (Collab := Demo.collaborators) ∅ 99
                        (Demo.request "echo" (Some ∅))) Demo.world0) = Ok r2
    ∧ api_id r1 ≠ api_id r2.
Proof.
  destruct (post_created (Collab := Demo.collaborators) ∅ 99
              (Demo.request "echo" (Some ∅)) Demo.world0
              ∅ Demo.echo (mkActionRef (Some "a1") (Some "echo"))
              "shell" Demo.shell)
    as [Ho1 Hs1]; try (vm_compute; reflexivity).
  destruct (post_created (Collab := Demo.collaborators) ∅ 100
              (Demo.request "echo" (Some ∅))
              (world_after (post (Collab := Demo.collaborators) ∅ 99
                              (Demo.request "echo" (Some ∅))) Demo.world0)
              ∅ Demo.echo (mkActionRef (Some "a1") (Some "echo"))
              "shell" Demo.shell)
    as [Ho2 _]; try (vm_compute; reflexivity).
  eexists _, _. split; [exact Ho1|]. split; [exact Ho2|].
  apply (post_twice_distinct_ids (Collab := Demo.collaborators)
           ∅ 99 (Demo.request "echo" (Some ∅))
           ∅ 100 (Demo.request "echo" (Some ∅)) Demo.world0 _ _
           ltac:(vm_compute; reflexivity) Ho1 Ho2).
Defined.

(** X3: a record just created is what [get_one] returns for its id. *)
Theorem post_then_get_one `{Collab : Collaborators} headers now a w r :
  store_ok (store w) = true →
  outcome_of (post headers now a) w = Ok r →
  ∃ id, api_id r = Some id
        ∧ outcome_of (get_one id) (world_after (post headers now a) w) = Ok r.
Proof.
  intros Hok Hr.
  destruct (post_Ok_inv _ _ _ _ _ Hr)
    as (p & action_db & action_dict & rname & rt & Hctx & Hp & Hact & Hen
        & Hrn & Hrt & Hval & Hav).
  destruct (post_created headers now a w p action_db action_dict rname rt)
    as [Ho Hs]; try done.
  rewrite Ho in Hr. injection Hr as <-.
  exists (py_str (next_oid (store w))). split; [done|].
  unfold outcome_of. rewrite get_one_run. unfold outcome_of.
  rewrite get_by_id_run, Hs. simpl.
  rewrite parse_oid_py_str.
  set (d := created_doc _ _ _ _ _ _ _).
  pose proof (find_fresh (store w) (set_db_status (Some SCHEDULED) d) Hok)
    as Hf.
  replace (set_db_id (next_oid (store w)) (set_db_status (Some SCHEDULED) d))
    with (set_db_status (Some SCHEDULED) d) in Hf by done.
  by rewrite Hf.
Qed.

Lemma post_then_get_one_witness :
  ∃ r, outcome_of (get_one "3")
         (world_after (post (Collab := Demo.collaborators) ∅ 99
                         (Demo.request "echo" (Some ∅))) Demo.world0) = Ok r
       ∧ api_status r = Some SCHEDULED.
Proof.
  destruct (post_created (Collab := Demo.collaborators) ∅ 99
              (Demo.request "echo" (Some ∅)) Demo.world0
              ∅ Demo.echo (mkActionRef (Some "a1") (Some "echo"))
              "shell" Demo.shell)
    as [Ho _]; try (vm_compute; reflexivity).
  destruct (post_then_get_one (Collab := Demo.collaborators) ∅ 99
              (Demo.request "echo" (Some ∅)) Demo.world0 _
              ltac:(vm_compute; reflexivity) Ho) as (id & Hid & Hget).
  injection Hid as <-. eexists. split; [exact Hget|reflexivity].
Defined.

(** X4: a request without [parameters] is never created, whatever the
    headers, the action and the runner type (also a runner type without
    parameters): [post] returns no record and writes nothing. *)
Theorem post_without_parameters_never_creates `{Collab : Collaborators}
    headers now a w :
  api_parameters a = None →
  (∀ r, outcome_of (post headers now a) w ≠ Ok r)
  ∧ (∀ e, outcome_of (post headers now a) w ≠ Abort BAD_REQUEST e)
  ∧ store (world_after (post headers now a) w) = store w.
Proof.
  intros Hp. unfold outcome_of, world_after. rewrite post_run, Hp.
  destruct (context_ok headers); simpl; [|done].
  destruct (get_action_by_dict (api_action a)) as [[action_db|] action_dict];
    [|done].
  destruct (enabled action_db); simpl; [|done].
  destruct (runner_type action_db !! "name") as [rname|]; [|done].
  by destruct (get_runnertype_by_name rname).
Qed.

Lemma post_without_parameters_never_creates_witness :
  store (world_after (post (Collab := Demo.collaborators) ∅ 99
                        (Demo.request "echo" None)) Demo.world0)
    = Demo.store0.
Proof.
  apply (post_without_parameters_never_creates (Collab := Demo.collaborators)
           ∅ 99 (Demo.request "echo" None) Demo.world0 eq_refl).
Defined.

(** X5: every error [post] answers with was logged first: when [post]
    aborts, the last log entry is an ERROR entry, and nothing was
    written. *)
Theorem post_abort_is_logged `{Collab : Collaborators}
    headers now a w code msg :
  outcome_of (post headers now a) w = Abort code msg →
  (∃ text, last (log (world_after (post headers now a) w))
             = Some (ERROR, text))
  ∧ store (world_after (post headers now a) w) = store w.
Proof.
  unfold outcome_of, world_after. rewrite post_run.
  destruct (context_ok headers); simpl; [|done].
  destruct (get_action_by_dict (api_action a)) as [[action_db|] action_dict];
    [|intros _; split; [eexists; apply last_snoc|done]].
  destruct (enabled action_db); simpl;
    [|intros _; split; [eexists; apply last_snoc|done]].
  destruct (runner_type action_db !! "name") as [rname|]; [|done].
  destruct (get_runnertype_by_name rname) as [rt|]; [|done].
  destruct (api_parameters a) as [p|]; [|done].
  destruct (jsonschema_validate _ _) as [e|].
  - intros _. split; [|done]. eexists.
    cbn [snd log].
    match goal with
    | |- context [?l ++ [?x; ?y; ?z]] =>
        replace (l ++ [x; y; z]) with ((l ++ [x; y]) ++ [z])
          by (by rewrite <- app_assoc)
    end.
    apply last_snoc.
  - destruct (available (store w)); simpl; [|done].
    by destruct (List.find _ _).
Qed.

Lemma post_abort_is_logged_witness :
  ∃ text, last (log (world_after (post (Collab := Demo.collaborators) ∅ 99
                                    (Demo.request "retired" (Some ∅)))
                       Demo.world0))
            = Some (ERROR, text).
Proof.
  apply (post_abort_is_logged (Collab := Demo.collaborators) ∅ 99
           (Demo.request "retired" (Some ∅)) Demo.world0 FORBIDDEN
           "Action is disabled.").
  vm_compute. reflexivity.
Defined.

(** X6: a [st2-context] header that is not empty and does not parse makes
    [post] fail with the parser's [ValueError], before the action is
    looked up: nothing but the first INFO entry is logged, nothing is
    written. *)
Theorem post_malformed_context_raises `{Collab : Collaborators}
    headers now a w h :
  headers !! "st2-context" = Some h → h ≠ "" →
  json_loads (replace squote dquote h) = None →
  post headers now a w
    = (Raise ValueError, mkWorld (store w) (log w ++ [log_post_received])).
Proof.
  intros Hh Hne Hload. rewrite post_run.
  assert (Hctx : context_ok headers = false).
  { unfold context_ok. rewrite Hh, Hload.
    rewrite !bool_decide_false; [done|by intros [? ?]|done]. }
  by rewrite Hctx.
Qed.

Lemma post_malformed_context_raises_witness :
  outcome_of (post (Collab := Demo.collaborators)
                {[ "st2-context" := "{'user': " ]} 99
                (Demo.request "echo" (Some ∅))) Demo.world0
    = Raise ValueError.
Proof.
  unfold outcome_of.
  rewrite (post_malformed_context_raises (Collab := Demo.collaborators)
             {[ "st2-context" := "{'user': " ]} 99
             (Demo.request "echo" (Some ∅)) Demo.world0 "{'user': ");
    [reflexivity|vm_compute; reflexivity|discriminate|vm_compute; reflexivity].
Defined.

(** X7: the status and the [start_timestamp] a client sends do not
    matter to [post]: two requests that differ in these two fields only
    get the same answer and leave the same store; the record gets
    INIT/SCHEDULED and the time of the call whatever was sent. *)
Theorem post_ignores_client_status `{Collab : Collaborators}
    headers now a a' w :
  api_id a = api_id a' →
  api_action a = api_action a' →
  api_parameters a = api_parameters a' →
  api_runner_parameters a = api_runner_parameters a' →
  api_result a = api_result a' →
  api_context a = api_context a' →
  outcome_of (post headers now a) w = outcome_of (post headers now a') w
  ∧ store (world_after (post headers now a) w)
    = store (world_after (post headers now a') w).
Proof.
  intros _ Hact Hp _ Hres Hctx. unfold outcome_of, world_after.
  assert (Hsame : post headers now a w = post headers now a' w).
  { rewrite !post_run. unfold log_before_checks, created_doc.
    by rewrite Hact, Hp, Hres, Hctx. }
  by rewrite Hsame.
Qed.

Lemma post_ignores_client_status_witness :
  outcome_of (post (Collab := Demo.collaborators) ∅ 99
                (mkAPI None (mkActionRef None (Some "echo")) (Some ∅) None
                       (Some FAILED) None 12345 None)) Demo.world0
  = outcome_of (post (Collab := Demo.collaborators) ∅ 99
                  (Demo.request "echo" (Some ∅))) Demo.world0.
Proof.
  exact (proj1 (post_ignores_client_status (Collab := Demo.collaborators)
                  ∅ 99
                  (mkAPI None (mkActionRef None (Some "echo")) (Some ∅)
                         None (Some FAILED) None 12345 None)
                  (Demo.request "echo" (Some ∅)) Demo.world0
                  eq_refl eq_refl eq_refl eq_refl eq_refl eq_refl)).
Defined.

(** X8: the defaulting loop, key by key: a supplied value stays; a key
    that is not supplied gets the runner's default when one is declared
    and is not [None]; a [None] default, a declaration without default
    and an undeclared key add nothing.  Running the loop on its own
    result changes nothing. *)
Theorem assign_default_parameters_exact rt a p w :
  api_parameters a = Some p →
  ∃ q,
    assign_default_parameters rt a w = (Ok (set_parameters q a), w)
    ∧ (∀ k, q !! k =
            match p !! k with
            | Some v => Some v
            | None =>
                match runner_parameters rt !! k with
                | Some metadata =>
                    match metadata !! "default" with
                    | Some JNull | None => None
                    | Some d => Some d
                    end
                | None => None
                end
            end)
    ∧ p ⊆ q
    ∧ assign_default_parameters rt (set_parameters q a) w
        = (Ok (set_parameters q a), w).
Proof.
  intros Hp. exists (merged_parameters (runner_parameters rt) p).
  split; [by apply assign_default_parameters_Some|]. split; [|split].
  - intros k. unfold merged_parameters. rewrite lookup_union, lookup_omap.
    destruct (p !! k) as [v|]; simpl.
    + by destruct (runner_parameters rt !! k ≫= default_of).
    + destruct (runner_parameters rt !! k) as [md|]; simpl; [|done].
      unfold default_of. destruct (md !! "default") as [[]|]; done.
  - apply map_union_subseteq_l.
  - rewrite (assign_default_parameters_Some _ _
               (merged_parameters (runner_parameters rt) p))
      by (by destruct a).
    do 2 f_equal. unfold merged_parameters.
    rewrite <- (assoc_L (∪)), (idemp_L (∪)). by destruct a.
Qed.

Lemma assign_default_parameters_exact_witness :
  ∃ q, assign_default_parameters
         (mkRunnerType "local"
            {[ "b" := {[ "default" := JNum 2 ]};
               "c" := {[ "default" := JNull ]};
               "d" := {[ "type" := JStr "string" ]} ]})
         (Demo.request "echo" (Some {[ "a" := JNum 5 ]})) Demo.world0
       = (Ok (Demo.request "echo" (Some q)), Demo.world0)
       ∧ q !! "a" = Some (JNum 5) ∧ q !! "b" = Some (JNum 2)
       ∧ q !! "c" = None ∧ q !! "d" = None.
Proof.
  destruct (assign_default_parameters_exact
              (mkRunnerType "local"
                 {[ "b" := {[ "default" := JNum 2 ]};
                    "c" := {[ "default" := JNull ]};
                    "d" := {[ "type" := JStr "string" ]} ]})
              (Demo.request "echo" (Some {[ "a" := JNum 5 ]}))
              {[ "a" := JNum 5 ]} Demo.world0 eq_refl) as (q & Hrun & Hq & _).
  exists q. split; [exact Hrun|].
  rewrite !Hq. repeat split; vm_compute; reflexivity.
Defined.

(** X9: the [st2-context] header is read after the quote replacement
    only: two non-empty headers that differ just in the kind of quotes
    give the same run of [post], and the text handed to the parser never
    holds a single quote, also where one stood inside a value. *)
Theorem post_context_quotes `{Collab : Collaborators} now a w h h' :
  h ≠ "" → h' ≠ "" →
  replace squote dquote h = replace squote dquote h' →
  post {[ "st2-context" := h ]} now a w
    = post {[ "st2-context" := h' ]} now a w
  ∧ (∀ n, String.get n (replace squote dquote h) ≠ Some squote)
  ∧ replace squote dquote (replace squote dquote h)
      = replace squote dquote h.
Proof.
  intros Hh Hh' Heq. split; [|split].
  - rewrite !post_run. unfold context_ok, header_context.
    rewrite !lookup_singleton_eq, Heq.
    by rewrite !(bool_decide_false (_ = "")), !(bool_decide_true (_ ≠ "")).
  - intros n. rewrite replace_get.
    destruct (String.get n h) as [c|]; [|done]. simpl.
    destruct (Ascii.eqb_spec c squote) as [->|Hc]; [done|congruence].
  - clear. induction h as [|c r IH]; simpl; [done|]. rewrite IH. f_equal.
    destruct (Ascii.eqb_spec c squote) as [->|Hc]; [done|].
    by rewrite (proj2 (Ascii.eqb_neq _ _) Hc).
Qed.

Lemma post_context_quotes_witness :
  post (Collab := Demo.collaborators)
       {[ "st2-context" := "{'user': 'stanley'}" ]} 99
       (Demo.request "echo" (Some ∅)) Demo.world0
  = post (Collab := Demo.collaborators)
         {[ "st2-context" := replace squote dquote "{'user': 'stanley'}" ]} 99
         (Demo.request "echo" (Some ∅)) Demo.world0.
Proof.
  refine (proj1 (post_context_quotes (Collab := Demo.collaborators) 99
                   (Demo.request "echo" (Some ∅)) Demo.world0
                   "{'user': 'stanley'}"
                   (replace squote dquote "{'user': 'stanley'}") _ _ _));
    [discriminate|vm_compute; discriminate|vm_compute; reflexivity].
Defined.

(** ** Update *)

(** X10: what [put] returns is what [get_one] then returns for the same
    id. *)
Theorem put_then_get_one id now a w r :
  outcome_of (put id now a) w = Ok r →
  outcome_of (get_one id) (world_after (put id now a) w) = Ok r.
Proof.
  unfold outcome_of, world_after. rewrite put_run, get_one_run.
  unfold outcome_of. rewrite !get_by_id_run. simpl.
  destruct (negb (available (store w))) eqn:Hav; [done|].
  destruct (parse_oid id) as [i|] eqn:Hid; [|done].
  destruct (List.find _ _) as [d|] eqn:Hf; [|done]. simpl.
  rewrite (find_has_id _ _ _ Hf). simpl. intros [= <-].
  by rewrite Hav, find_upsert.
Qed.

Lemma put_then_get_one_witness :
  ∃ r, outcome_of (get_one "1")
         (world_after (put "1" 77 (Demo.request "echo" None)) Demo.world0)
       = Ok r
       ∧ api_status r = None.
Proof.
  exists (from_model (mkDB (Some 1%N) (mkActionRef (Some "a1") (Some "echo"))
                        ∅ None None 10 None)).
  split; [|reflexivity].
  refine (put_then_get_one "1" 77 (Demo.request "echo" None) Demo.world0
            _ _).
  vm_compute. reflexivity.
Defined.

Lemma upsert_upsert i d l x :
  db_id d = Some i → List.find (has_id i) l = Some x →
  upsert i d (upsert i d l) = upsert i d l.
Proof.
  intros Hd. induction l as [|y l IH]; simpl; [done|].
  destruct (has_id i y) eqn:Hy; simpl.
  - intros _. unfold has_id at 1. by rewrite bool_decide_true.
  - intros Hf. by rewrite Hy, IH.
Qed.

Lemma py_write_twice (x y : option json) :
  (if py_ne (if py_ne x y then y else x) y
   then y else if py_ne x y then y else x)
  = (if py_ne x y then y else x).
Proof.
  destruct (py_ne x y) eqn:Hxy; [by destruct (py_ne y y)|by rewrite Hxy].
Qed.

(** X11: [put] is idempotent: sending the same status and result again,
    at whatever time, returns the same record and leaves the documents as
    the first [put] left them. *)
Theorem put_twice id now now' a w r :
  outcome_of (put id now a) w = Ok r →
  let w1 := world_after (put id now a) w in
  outcome_of (put id now' a) w1 = Ok r
  ∧ docs (store (world_after (put id now' a) w1)) = docs (store w1).
Proof.
  unfold outcome_of, world_after. rewrite !put_run.
  unfold outcome_of. rewrite !get_by_id_run. simpl.
  destruct (negb (available (store w))) eqn:Hav; [done|].
  destruct (parse_oid id) as [i|] eqn:Hid; [|done].
  destruct (List.find _ _) as [d|] eqn:Hf; [|done]. simpl.
  pose proof (find_has_id _ _ _ Hf) as Hd. rewrite Hd. simpl.
  intros [= <-]. rewrite Hav, find_upsert by done. simpl.
  rewrite py_write_twice. split; [done|]. by eapply upsert_upsert.
Qed.

Lemma put_twice_witness :
  docs (store (world_after (put "1" 78 (Demo.request "echo" None))
                 (world_after (put "1" 77 (Demo.request "echo" None))
                    Demo.world0)))
  = docs (store (world_after (put "1" 77 (Demo.request "echo" None))
                   Demo.world0)).
Proof.
  refine (proj2 (put_twice "1" 77 78 (Demo.request "echo" None) Demo.world0
                   (from_model (mkDB (Some 1%N)
                                  (mkActionRef (Some "a1") (Some "echo"))
                                  ∅ None None 10 None)) _)).
  vm_compute. reflexivity.
Defined.

(** X12: [put] touches one document only: the document of every other id
    is as it was, and the number of documents, their ids and the id
    counter do not change; [put] never creates a record. *)
Theorem put_leaves_other_documents id now a w r i :
  outcome_of (put id now a) w = Ok r →
  parse_oid id = Some i →
  let s' := store (world_after (put id now a) w) in
  (∀ j, j ≠ i →
        List.find (has_id j) (docs s') = List.find (has_id j) (docs (store w)))
  ∧ length (docs s') = length (docs (store w))
  ∧ doc_ids s' = doc_ids (store w)
  ∧ next_oid s' = next_oid (store w).
Proof.
  unfold outcome_of, world_after. rewrite put_run.
  unfold outcome_of. rewrite get_by_id_run. simpl.
  destruct (negb (available (store w))) eqn:Hav; [done|].
  destruct (parse_oid id) as [i'|] eqn:Hid; [|done].
  destruct (List.find _ _) as [d|] eqn:Hf; [|done]. simpl.
  pose proof (find_has_id _ _ _ Hf) as Hd. rewrite Hd. simpl.
  intros _ [= ->]. repeat split.
  - intros j Hj. apply find_upsert_ne; [done|congruence].
  - by eapply upsert_length.
  - unfold doc_ids. simpl. by eapply doc_ids_upsert.
Qed.

Lemma put_leaves_other_documents_witness :
  List.find (has_id 2%N)
    (docs (store (world_after (put "1" 77 (Demo.request "echo" None))
                    Demo.world0)))
  = Some (Demo.doc 2 20 FAILED).
Proof.
  assert (Hput : outcome_of (put "1" 77 (Demo.request "echo" None))
                    Demo.world0
                  = Ok (from_model (mkDB (Some 1%N)
                                      (mkActionRef (Some "a1") (Some "echo"))
                                      ∅ None None 10 None)))
    by (vm_compute; reflexivity).
  destruct (put_leaves_other_documents "1" 77 (Demo.request "echo" None)
              Demo.world0 _ 1%N Hput eq_refl) as (Hother & _).
  rewrite (Hother 2%N); [reflexivity|discriminate].
Defined.

(** X13: [put] reads the status and the result of the request and nothing
    else; the time it stamps on the request has no effect. *)
Theorem put_reads_status_and_result id now now' a a' w :
  api_status a = api_status a' →
  api_result a = api_result a' →
  put id now a w = put id now' a' w.
Proof. intros Hs Hr. rewrite !put_run. by rewrite Hs, Hr. Qed.

Lemma put_reads_status_and_result_witness :
  put "1" 77 (Demo.request "echo" None) Demo.world0
  = put "1" 5 (Demo.request "other" (Some {[ "a" := JNum 1 ]})) Demo.world0.
Proof.
  exact (put_reads_status_and_result "1" 77 5 (Demo.request "echo" None)
           (Demo.request "other" (Some {[ "a" := JNum 1 ]})) Demo.world0
           eq_refl eq_refl).
Defined.

(** ** Reading *)

Lemma _get_action_executions_store action_id action_name limit kw w :
  store (_get_action_executions action_id action_name limit kw w).2 = store w.
Proof.
  unfold _get_action_executions.
  destruct action_id as [aid|], action_name as [aname|];
    rewrite bind_LOG;
    unfold ActionExecution.get_all, ActionExecution.query,
      mbind, M_bind, bind; simpl;
    by destruct (negb (available (store w))).
Qed.

Lemma last_snoc2 {A} (l : list A) x y : last (l ++ [x; y]) = Some y.
Proof.
  change (l ++ [x; y]) with (l ++ [x] ++ [y]).
  by rewrite app_assoc, last_snoc.
Qed.

(** X14: the two reading handlers never write: after [get_one] and after
    [get_all] the store is what it was, whatever they were asked and
    whatever they answered. *)
Theorem reads_leave_store id action_id action_name limit kw w :
  store (world_after (get_one id) w) = store w
  ∧ store (world_after (get_all action_id action_name limit kw) w) = store w.
Proof.
  unfold world_after. split.
  - rewrite get_one_run. by destruct (outcome_of _ _).
  - unfold get_all. rewrite bind_LOG.
    destruct (py_int (default "50" limit)) as [n|]; [|done].
    unfold mbind, M_bind, bind.
    pose proof (_get_action_executions_store action_id action_name (Some n) kw
                  (mkWorld (store w)
                     (log w ++ [(INFO, "GET all /actionexecutions/ with action_name=%s, action_id=%s, and limit=%s")])))
      as Hq.
    destruct (_get_action_executions _ _ _ _ _) as [[ds|c m|e] w']; by simpl in *.
Qed.

(** X15: when the lookup by id fails, [get_one] and [put] answer 404 with
    exactly the message they have just logged as an exception, and write
    nothing. *)
Theorem lookup_failure_is_logged id now a w code msg :
  (outcome_of (get_one id) w = Abort code msg →
   code = NOT_FOUND
   ∧ last (log (world_after (get_one id) w)) = Some (EXCEPTION, msg))
  ∧ (outcome_of (put id now a) w = Abort code msg →
     code = NOT_FOUND
     ∧ last (log (world_after (put id now a) w)) = Some (EXCEPTION, msg)
     ∧ store (world_after (put id now a) w) = store w).
Proof.
  unfold outcome_of, world_after. rewrite get_one_run, put_run. split.
  - destruct (outcome_of _ _) as [d|c m|e]; simpl; [done|..];
      intros [= <- <-]; (split; [done|]); apply last_snoc2.
  - destruct (outcome_of _ _) as [d|c m|e]; simpl;
      [by destruct (db_id d)|..];
      intros [= <- <-]; by rewrite last_snoc.
Qed.

Lemma lookup_failure_is_logged_witness :
  (∃ msg, last (log (world_after (get_one "nine") Demo.world0))
            = Some (EXCEPTION, msg)
          ∧ outcome_of (get_one "nine") Demo.world0 = Abort NOT_FOUND msg)
  ∧ store (world_after (put "7" 77 (Demo.request "echo" None)) Demo.world0)
      = Demo.store0.
Proof.
  split.
  - assert (Hget : outcome_of (get_one "nine") Demo.world0
                   = Abort NOT_FOUND (lookup_msg "nine" (str_exn InvalidObjectId)))
      by (vm_compute; reflexivity).
    destruct (proj1 (lookup_failure_is_logged "nine" 0
                       (Demo.request "echo" None) Demo.world0 _ _) Hget)
      as [_ Hlog].
    eexists. split; [exact Hlog|exact Hget].
  - assert (Hput : outcome_of (put "7" 77 (Demo.request "echo" None))
                     Demo.world0
                   = Abort NOT_FOUND (lookup_msg "7" (str_exn DoesNotExist)))
      by (vm_compute; reflexivity).
    destruct (proj2 (lookup_failure_is_logged "7" 77
                       (Demo.request "echo" None) Demo.world0 _ _) Hput)
      as (_ & _ & Hstore).
    exact Hstore.
Defined.

Lemma Forall_sort_by {A} (P : A → Prop) leb (l : list A) :
  Forall P l → Forall P (sort_by leb l).
Proof.
  intros Hl. apply Forall_forall. intros x Hx.
  rewrite Forall_forall in Hl. apply Hl.
  by rewrite <- (sort_by_Permutation leb l).
Qed.

Lemma get_all_Ok_elements action_id action_name limit kw w rs :
  outcome_of (get_all action_id action_name limit kw) w = Ok rs →
  ∃ ds, rs = from_model <$> ds
        ∧ Forall (λ d, selected action_id action_name kw d = true) ds
        ∧ Forall (λ d, d ∈ docs (store w)) ds.
Proof.
  intros Hrs. destruct (get_all_Ok_inv _ _ _ _ _ _ Hrs) as (n & Hn & Hav).
  rewrite (get_all_run _ _ _ _ n) in Hrs by done. injection Hrs as <-.
  eexists. split; [done|].
  split; apply Forall_sort_by, Forall_take, Forall_sort_by, Forall_forall;
    intros d Hd; apply list_elem_of_In, filter_In in Hd as [Hin Hsel];
    [done|by apply list_elem_of_In].
Qed.

(** X16: with [action_id], [get_all] returns only records of that action
    id, and [action_name] is not looked at; with [action_name] alone it
    returns only records of that action name.  Every record returned is
    a stored one that also passes the extra filters. *)
Theorem get_all_primary_filter action_id action_name limit kw w :
  (∀ aid rs,
     outcome_of (get_all (Some aid) action_name limit kw) w = Ok rs →
     Forall (λ r, ref_id (api_action r) = Some aid) rs)
  ∧ (∀ aid, get_all (Some aid) action_name limit kw w
            = get_all (Some aid) None limit kw w)
  ∧ (∀ aname rs,
       outcome_of (get_all None (Some aname) limit kw) w = Ok rs →
       Forall (λ r, ref_name (api_action r) = Some aname) rs)
  ∧ (∀ rs,
       outcome_of (get_all action_id action_name limit kw) w = Ok rs →
       Forall (λ r, ∃ d, d ∈ docs (store w) ∧ kw d = true ∧ r = from_model d)
         rs).
Proof.
  split; [|split; [|split]].
  - intros aid rs Hrs.
    destruct (get_all_Ok_elements _ _ _ _ _ _ Hrs) as (ds & -> & Hsel & _).
    apply Forall_fmap. eapply Forall_impl; [exact Hsel|].
    intros d Hd. simpl in *. apply andb_prop in Hd as [Hd _].
    by apply bool_decide_eq_true in Hd.
  - intros aid. unfold get_all, _get_action_executions.
    by destruct action_name.
  - intros aname rs Hrs.
    destruct (get_all_Ok_elements _ _ _ _ _ _ Hrs) as (ds & -> & Hsel & _).
    apply Forall_fmap. eapply Forall_impl; [exact Hsel|].
    intros d Hd. simpl in *. apply andb_prop in Hd as [Hd _].
    by apply bool_decide_eq_true in Hd.
  - intros rs Hrs.
    destruct (get_all_Ok_elements _ _ _ _ _ _ Hrs) as (ds & -> & Hsel & Hin).
    apply Forall_fmap, Forall_forall. intros d Hd.
    rewrite Forall_forall in Hsel, Hin. exists d. split; [by apply Hin|].
    split; [|done]. specialize (Hsel d Hd). unfold selected in Hsel.
    destruct action_id, action_name; try done;
      by apply andb_prop in Hsel as [_ ?].
Qed.

Lemma get_all_primary_filter_witness :
  ∃ rs, outcome_of (get_all (Some "a1") (Some "other") None (λ _, true))
          Demo.world0 = Ok rs
        ∧ Forall (λ r, ref_id (api_action r) = Some "a1") rs
        ∧ length rs = 3%nat.
Proof.
  assert (Hrun : outcome_of (get_all (Some "a1") (Some "other") None
                               (λ _, true)) Demo.world0
                 = Ok (from_model <$> [Demo.doc 1 10 RUNNING;
                                       Demo.doc 2 20 FAILED;
                                       Demo.doc 0 30 SUCCEEDED]))
    by (vm_compute; reflexivity).
  eexists. split; [exact Hrun|]. split; [|reflexivity].
  exact (proj1 (get_all_primary_filter (Some "a1") (Some "other") None
                  (λ _, true) Demo.world0) "a1" _ Hrun).
Defined.

Lemma StronglySorted_app_elem_of {A} (R : A → A → Prop) l1 l2 x y :
  StronglySorted R (l1 ++ l2) → x ∈ l1 → y ∈ l2 → R x y.
Proof.
  induction l1 as [|z l1 IH]; simpl; [by intros _ ?%elem_of_nil|].
  intros Hs Hx Hy. apply StronglySorted_inv in Hs as [Hs Hz].
  apply elem_of_cons in Hx as [->|Hx]; [|by apply IH].
  rewrite Forall_forall in Hz. apply Hz. apply elem_of_app. by right.
Qed.

(** X17: [limit] keeps the newest: of the records that match, [get_all]
    returns the [limit] ones with the latest [start_timestamp] (all of
    them when fewer match), oldest first; no record left out is newer
    than one returned. *)
Theorem get_all_keeps_newest action_id action_name limit kw w n :
  py_int (default "50" limit) = Some n →
  available (store w) = true →
  let matching :=
    List.filter (selected action_id action_name kw) (docs (store w)) in
  ∃ kept dropped,
    matching ≡ₚ kept ++ dropped
    ∧ outcome_of (get_all action_id action_name limit kw) w
        = Ok (from_model <$> sort_by ascending kept)
    ∧ length kept = Nat.min (Z.to_nat n) (length matching)
    ∧ (∀ x y, x ∈ kept → y ∈ dropped →
              db_start_timestamp y ≤ db_start_timestamp x).
Proof.
  intros Hn Hav matching.
  exists (take (Z.to_nat n) (sort_by descending matching)),
         (drop (Z.to_nat n) (sort_by descending matching)).
  split; [by rewrite take_drop, sort_by_Permutation|].
  split; [by rewrite (get_all_run _ _ _ _ n)|].
  split; [by rewrite length_take, sort_by_length|].
  intros x y Hx Hy.
  eapply (StronglySorted_app_elem_of db_ts_ge); [|exact Hx|exact Hy].
  rewrite take_drop. apply sort_by_descending.
Qed.

Lemma get_all_keeps_newest_witness :
  ∃ kept,
    outcome_of (get_all None None (Some "2") (λ _, true)) Demo.world0
      = Ok (from_model <$> sort_by ascending kept)
    ∧ length kept = 2%nat.
Proof.
  destruct (get_all_keeps_newest None None (Some "2") (λ _, true)
              Demo.world0 2 eq_refl eq_refl)
    as (kept & dropped & _ & Hrun & Hlen & _).
  exists kept. split; [exact Hrun|exact Hlen].
Defined.

Lemma py_space_not_letter c : py_space c = true → is_ascii_letter c = false.
Proof. by destruct c as [[] [] [] [] [] [] [] []]. Qed.

Lemma has_letter_lstrip s : has_letter (lstrip s) = has_letter s.
Proof.
  induction s as [|c r IH]; simpl; [done|].
  destruct (py_space c) eqn:Hc; [|done].
  by rewrite IH, (py_space_not_letter c).
Qed.

Lemma has_letter_rstrip s : has_letter (rstrip s) = has_letter s.
Proof.
  induction s as [|c r IH]; simpl; [done|]. rewrite <- IH.
  destruct (rstrip r) as [|c' r']; [|done]. simpl.
  destruct (py_space c) eqn:Hc; simpl; [|done].
  by rewrite (py_space_not_letter c).
Qed.

Lemma has_letter_digits d : has_letter (NilEmpty.string_of_uint d) = false.
Proof. induction d; simpl; done. Qed.

Lemma uint_of_string_letter s :
  has_letter s = true → NilZero.uint_of_string s = None.
Proof.
  intros Hs. destruct (NilZero.uint_of_string s) as [d|] eqn:Hd; [|done].
  apply NilZero.sus in Hd. subst s. unfold NilZero.string_of_uint in Hs.
  destruct d; simpl in Hs; try done; by rewrite has_letter_digits in Hs.
Qed.

Lemma int_of_string_letter s :
  has_letter s = true → NilZero.int_of_string s = None.
Proof.
  intros Hs. destruct (NilZero.int_of_string s) as [i|] eqn:Hi; [|done].
  apply NilZero.sis in Hi. subst s. destruct i as [d|d]; simpl in Hs;
    unfold NilZero.string_of_uint in Hs;
    destruct d; simpl in Hs; try done; by rewrite has_letter_digits in Hs.
Qed.

Lemma py_int_letter s : has_letter s = true → py_int s = None.
Proof.
  intros Hs. unfold py_int, strip.
  assert (Ht : has_letter (rstrip (lstrip s)) = true)
    by (by rewrite has_letter_rstrip, has_letter_lstrip).
  destruct (rstrip (lstrip s)) as [|c r] eqn:Hstrip; [done|].
  assert (Hint : NilZero.int_of_string (String c r) = None)
    by (by apply int_of_string_letter).
  destruct (decide (c = "+"%char)) as [->|Hc].
  - simpl in Ht. by rewrite uint_of_string_letter.
  - destruct c as [[] [] [] [] [] [] [] []]; try (by rewrite Hint). done.
Qed.

Lemma py_int_blank s : strip s = "" → py_int s = None.
Proof. intros Hs. unfold py_int. by rewrite Hs. Qed.

(** X18: a [limit] that holds a letter, or is empty or blank, makes
    [get_all] fail with the [ValueError] of [int] before the store is
    asked, also when the store is down: only the INFO entry is logged and
    nothing is written.  The answer is an unhandled error, not a 400. *)
Theorem get_all_non_numeric_limit action_id action_name limit kw w :
  has_letter limit = true ∨ strip limit = "" →
  get_all action_id action_name (Some limit) kw w
    = (Raise ValueError,
       mkWorld (store w)
         (log w ++ [(INFO, "GET all /actionexecutions/ with action_name=%s, action_id=%s, and limit=%s")])).
Proof.
  intros Hlimit.
  assert (Hn : py_int limit = None).
  { destruct Hlimit; [by apply py_int_letter|by apply py_int_blank]. }
  unfold get_all. rewrite bind_LOG. simpl. by rewrite Hn.
Qed.

Lemma get_all_non_numeric_limit_witness :
  outcome_of (get_all None None (Some "ten") (λ _, true)) Demo.offline
    = Raise ValueError
  ∧ outcome_of (get_all None None (Some "1e3") (λ _, true)) Demo.world0
    = Raise ValueError
  ∧ outcome_of (get_all None None (Some "  ") (λ _, true)) Demo.world0
    = Raise ValueError.
Proof.
  unfold outcome_of.
  rewrite (get_all_non_numeric_limit None None "ten" (λ _, true) Demo.offline
             (or_introl eq_refl)).
  rewrite (get_all_non_numeric_limit None None "1e3" (λ _, true) Demo.world0
             (or_introl eq_refl)).
  rewrite (get_all_non_numeric_limit None None "  " (λ _, true) Demo.world0
             (or_intror eq_refl)).
  repeat split.
Defined.

(** X21: a record just created shows up in the unfiltered listing, next
    to every record that was there, when the limit leaves room for all
    of them. *)
Theorem post_then_get_all `{Collab : Collaborators}
    headers now a w r limit n :
  store_ok (store w) = true →
  outcome_of (post headers now a) w = Ok r →
  py_int (default "50" limit) = Some n →
  (length (docs (store w)) < Z.to_nat n)%nat →
  ∃ rs, outcome_of (get_all None None limit (λ _, true))
          (world_after (post headers now a) w) = Ok rs
        ∧ r ∈ rs
        ∧ length rs = S (length (docs (store w)))
        ∧ (∀ d, d ∈ docs (store w) → from_model d ∈ rs).
Proof.
  intros Hok Hr Hn Hlen.
  destruct (post_Ok_inv _ _ _ _ _ Hr)
    as (p & action_db & action_dict & rname & rt & Hctx & Hp & Hact & Hen
        & Hrn & Hrt & Hval & Hav).
  destruct (post_created headers now a w p action_db action_dict rname rt)
    as [Ho Hs]; try done.
  rewrite Ho in Hr. injection Hr as <-.
  set (d' := set_db_status _ _) in *.
  rewrite (get_all_run _ _ _ _ n) by (done || by rewrite Hs).
  rewrite Hs. simpl.
  assert (Hf : List.filter (selected None None (λ _, true))
                 (docs (store w) ++ [d']) = docs (store w) ++ [d']).
  { apply forallb_filter_id, forallb_forall. done. }
  rewrite Hf, take_ge
    by (rewrite sort_by_length, length_app; simpl; lia).
  eexists. split; [done|].
  assert (Hin : ∀ d, d ∈ docs (store w) ++ [d'] →
                     from_model d
                       ∈ from_model <$>
                           sort_by ascending
                             (sort_by descending (docs (store w) ++ [d']))).
  { intros d Hd. apply list_elem_of_fmap_2.
    by rewrite !sort_by_Permutation. }
  split; [|split].
  - apply Hin, elem_of_app. right. by apply list_elem_of_singleton.
  - rewrite length_fmap, !sort_by_length, length_app. simpl. lia.
  - intros d Hd. apply Hin, elem_of_app. by left.
Qed.

Lemma post_then_get_all_witness :
  ∃ rs, outcome_of (get_all None None None (λ _, true))
          (world_after (post (Collab := Demo.collaborators) ∅ 99
                          (Demo.request "echo" (Some ∅))) Demo.world0)
        = Ok rs
        ∧ length rs = 4%nat.
Proof.
  destruct (post_created (Collab := Demo.collaborators) ∅ 99
              (Demo.request "echo" (Some ∅)) Demo.world0
              ∅ Demo.echo (mkActionRef (Some "a1") (Some "echo"))
              "shell" Demo.shell)
    as [Ho _]; try (vm_compute; reflexivity).
  destruct (post_then_get_all (Collab := Demo.collaborators) ∅ 99
              (Demo.request "echo" (Some ∅)) Demo.world0 _ None 50
              ltac:(vm_compute; reflexivity) Ho eq_refl
              ltac:(vm_compute; lia))
    as (rs & Hrs & _ & Hlen & _).
  exists rs. split; [exact Hrs|exact Hlen].
Defined.

(** ** Ids *)

Lemma store_ok_elem_of s d :
  store_ok s = true → d ∈ docs s →
  ∃ i, db_id d = Some i ∧ (i < next_oid s)%N.
Proof.
  unfold store_ok. rewrite forallb_forall. intros Hs Hd.
  apply list_elem_of_In in Hd. specialize (Hs d Hd).
  destruct (db_id d) as [i|]; [|done]. exists i. split; [done|].
  by apply N.ltb_lt.
Qed.

(** X19: [post] and [put] keep the ids in order: if every stored
    document has an id below the counter and no two share one, the same
    holds after either handler, whatever its outcome. *)
Theorem handlers_keep_ids_unique `{Collab : Collaborators}
    headers id now a w :
  store_wf (store w) = true →
  store_wf (store (world_after (post headers now a) w)) = true
  ∧ store_wf (store (world_after (put id now a) w)) = true.
Proof.
  unfold store_wf. intros [Hok Hnd]%andb_prop.
  apply bool_decide_eq_true in Hnd. split; apply andb_true_intro; split.
  - by apply post_keeps_store_ok.
  - apply bool_decide_eq_true.
    destruct (post_returns_or_keeps_store headers now a w) as [[r Hr]|Hs];
      [|by rewrite Hs].
    destruct (post_Ok_inv _ _ _ _ _ Hr)
      as (p & action_db & action_dict & rname & rt & Hctx & Hp & Hact & Hen
          & Hrn & Hrt & Hval & Hav).
    destruct (post_created headers now a w p action_db action_dict rname rt)
      as [_ Hs]; try done.
    rewrite Hs. unfold doc_ids in *. simpl. rewrite fmap_app. simpl.
    apply NoDup_app. split; [done|]. split; [|apply NoDup_singleton].
    intros x Hx Hx'. apply list_elem_of_singleton in Hx'. subst x.
    apply list_elem_of_fmap in Hx as (d & Hd & Hin).
    destruct (store_ok_elem_of _ _ Hok Hin) as (i & Hi & Hlt).
    rewrite Hi in Hd. injection Hd as Hd. lia.
  - by apply put_keeps_store_ok.
  - apply bool_decide_eq_true. unfold world_after. rewrite put_run.
    unfold outcome_of. rewrite get_by_id_run. simpl.
    destruct (negb (available (store w))); [done|].
    destruct (parse_oid id) as [i|]; [|done].
    destruct (List.find _ _) as [d|] eqn:Hf; [|done]. simpl.
    pose proof (find_has_id _ _ _ Hf) as Hd. rewrite Hd. simpl.
    unfold doc_ids in *. simpl. by erewrite doc_ids_upsert.
Qed.

Lemma handlers_keep_ids_unique_witness :
  store_wf (store (world_after (post (Collab := Demo.collaborators) ∅ 99
                                  (Demo.request "echo" (Some ∅)))
                     Demo.world0)) = true
  ∧ store_wf (store (world_after (put "1" 77 (Demo.request "echo" None))
                       Demo.world0)) = true.
Proof.
  apply (handlers_keep_ids_unique (Collab := Demo.collaborators) ∅ "1" 99
           (Demo.request "echo" (Some ∅)) Demo.world0).
  vm_compute. reflexivity.
Defined.

(** X20: the live-action data of an execution holds its id, as a string,
    under the one key [actionexecution_id]; the id can be read back from
    it, so different executions give different data. *)
Theorem create_liveaction_data_id (i : ObjectId) :
  _create_liveaction_data i !! "actionexecution_id" ≫= parse_oid = Some i
  ∧ dom (_create_liveaction_data i) = ({[ "actionexecution_id" ]} : gset string)
  ∧ (∀ j, _create_liveaction_data i = _create_liveaction_data j → i = j).
Proof.
  unfold _create_liveaction_data. split; [|split].
  - rewrite lookup_singleton_eq. simpl. apply parse_oid_py_str.
  - apply dom_singleton_L.
  - intros j Hij.
    assert (Hl : ({[ "actionexecution_id" := py_str i ]} : gmap string string)
                   !! "actionexecution_id"
                 = ({[ "actionexecution_id" := py_str j ]} : gmap string string)
                     !! "actionexecution_id") by (by rewrite Hij).
    rewrite !lookup_singleton_eq in Hl. injection Hl as Hl.
    by apply py_str_inj.
Qed.

Lemma create_liveaction_data_id_witness :
  _create_liveaction_data 3%N ≠ _create_liveaction_data 12%N.
Proof.
  intros Heq.
  destruct (create_liveaction_data_id 3%N) as (_ & _ & Hinj).
  specialize (Hinj 12%N Heq). discriminate Hinj.
Defined.

(** ** One record, one audit entry *)

(** X22: a [post] that returns has added exactly one document and logged
    exactly one audit entry; a [post] that aborts (NotFound, Forbidden,
    BadRequest) has added none and logged none.  Whatever the outcome,
    the log only grew. *)
Theorem post_one_record_one_audit `{Collab : Collaborators} headers now a w :
  ∃ l, log (world_after (post headers now a) w) = log w ++ l
       ∧ match outcome_of (post headers now a) w with
         | Ok _ =>
             length (List.filter is_audit l) = 1%nat
             ∧ length (docs (store (world_after (post headers now a) w)))
               = S (length (docs (store w)))
         | Abort _ _ =>
             List.filter is_audit l = []
             ∧ docs (store (world_after (post headers now a) w))
               = docs (store w)
         | Raise _ => True
         end.
Proof.
  unfold outcome_of, world_after. rewrite post_run. unfold log_before_checks.
  destruct (context_ok headers); simpl; [|by eexists].
  destruct (get_action_by_dict (api_action a)) as [[action_db|] action_dict];
    [|rewrite <- app_assoc; eexists; split; [done|];
      by destruct (api_parameters a)].
  destruct (enabled action_db); simpl;
    [|rewrite <- app_assoc; eexists; split; [done|];
      by destruct (api_parameters a)].
  destruct (runner_type action_db !! "name") as [rname|]; [|by eexists].
  destruct (get_runnertype_by_name rname) as [rt|]; [|by eexists].
  destruct (api_parameters a) as [p|];
    [|rewrite <- app_assoc; by eexists].
  destruct (jsonschema_validate _ _) as [e|];
    [rewrite <- app_assoc; by eexists|].
  destruct (available (store w)); simpl; [|rewrite <- app_assoc; by eexists].
  match goal with
  | |- context [List.find (has_id ?n) (?l ++ [?d])] =>
      destruct (find_appended n d l) as (x & Hf & Hx);
      replace (set_db_id n d) with d in Hf by done
  end.
  rewrite Hf. simpl. rewrite <- app_assoc. eexists. split; [done|].
  split; [done|]. erewrite upsert_length by exact Hf.
  rewrite length_app. simpl. lia.
Qed.
